(** * libiocage: the [create] command and the JSON configuration codec

    A shallow embedding of [iocage/cli/create.py] ([validate_count] and
    [cli]) and of [libiocage/lib/Config/Type/JSON.py] ([ConfigJSON]),
    with the properties of the provisioning workflow stated over it.

    Python text is modelled as [string]; its 8-bit characters are read as
    the code points U+0000 to U+00FF.  Python integers are [Z].  A [dict]
    with text keys is a [gmap string _]: Python compares dicts by their
    key/value pairs, not by insertion order, which is the equality of
    [gmap]. *)

From Stdlib Require Import ZArith Ascii String Decimal DecimalString DecimalZ.
From stdpp Require Import gmap strings list fin_maps.

Local Open Scope string_scope.
Local Open Scope Z_scope.

(** ** Built-in operations of the interpreter used by the sources *)

Module Py.

(** The exceptions the sources distinguish.  [IocageException] stands for
    the library's error class and all of its subclasses; [Foreign] is any
    exception class outside that hierarchy (and other than the two
    built-ins named here). *)
Inductive exn : Type :=
| ValueError
| KeyError
| IocageException
| Foreign (name : string).

Definition is_IocageException (e : exn) : bool :=
  match e with IocageException => true | _ => false end.

Definition is_ValueError (e : exn) : bool :=
  match e with ValueError => true | _ => false end.

Definition is_ValueError_or_KeyError (e : exn) : bool :=
  match e with ValueError | KeyError => true | _ => false end.

(** [s.replace(old, new)] for a one-character [old]. *)
Fixpoint str_replace (old : ascii) (new : string) (s : string) : string :=
  match s with
  | EmptyString => EmptyString
  | String c s' =>
      if Ascii.eqb c old then new ++ str_replace old new s'
      else String c (str_replace old new s')
  end.

(** [s.split(sep, maxsplit=1)] for a one-character [sep]: the text before
    the first [sep] and the text after it, or [s] alone. *)
Fixpoint str_split1 (sep : ascii) (s : string) : list string :=
  match s with
  | EmptyString => [EmptyString]
  | String c s' =>
      if Ascii.eqb c sep then [EmptyString; s']
      else match str_split1 sep s' with
           | [a] => [String c a]
           | a :: rest => String c a :: rest
           | [] => []
           end
  end.

(** Truth value of an optional text: [None] and the empty text are false. *)
Definition truthy (o : option string) : bool :=
  match o with
  | None => false
  | Some EmptyString => false
  | Some _ => true
  end.

(** *** [int(text)] *)

(** White space skipped around an integer literal: tab, line feed,
    vertical tab, form feed, carriage return, space, and (outside ASCII)
    U+0085 and U+00A0. *)
Definition is_space (c : ascii) : bool :=
  let n := nat_of_ascii c in
  ((9 <=? n) && (n <=? 13))%nat || (n =? 32)%nat || (n =? 133)%nat
  || (n =? 160)%nat.

Definition digit_of (c : ascii) : option (uint -> uint) :=
  match c with
  | "0"%char => Some D0 | "1"%char => Some D1 | "2"%char => Some D2
  | "3"%char => Some D3 | "4"%char => Some D4 | "5"%char => Some D5
  | "6"%char => Some D6 | "7"%char => Some D7 | "8"%char => Some D8
  | "9"%char => Some D9 | _ => None
  end.

Fixpoint lstrip (s : string) : string :=
  match s with
  | String c s' => if is_space c then lstrip s' else s
  | EmptyString => EmptyString
  end.

Fixpoint all_space (s : string) : bool :=
  match s with
  | EmptyString => true
  | String c s' => is_space c && all_space s'
  end.

(** The digits of the literal, with single underscores allowed between
    digits; [prev_us] tells that the previous character was an
    underscore.  Returns the digits read and the rest of the text. *)
Fixpoint scan_digits (prev_us : bool) (s : string) : option (uint * string) :=
  match s with
  | EmptyString => if prev_us then None else Some (Nil, EmptyString)
  | String c s' =>
      if Ascii.eqb c "_"%char then
        if prev_us then None else scan_digits true s'
      else
        match digit_of c with
        | Some D =>
            match scan_digits false s' with
            | Some (d, r) => Some (D d, r)
            | None => None
            end
        | None => if prev_us then None else Some (Nil, s)
        end
  end.

Definition take_sign (s : string) : bool * string :=
  match s with
  | String "-"%char s' => (true, s')
  | String "+"%char s' => (false, s')
  | _ => (false, s)
  end.

(** [int(s)] in base ten; [None] is [ValueError]. *)
Definition int_of_str (s : string) : option Z :=
  let (neg, body) := take_sign (lstrip s) in
  match body with
  | String "_"%char _ => None
  | _ =>
      match scan_digits false body with
      | Some (Nil, _) => None
      | Some (d, r) =>
          if all_space r
          then Some (Z.of_int (if neg then Neg d else Pos d))
          else None
      | None => None
      end
  end.

(** [str(n)], as interpolated by an f-string. *)
Definition str_of_int (n : Z) : string := NilZero.string_of_int (Z.to_int n).

Definition is_alpha (c : ascii) : bool :=
  let n := nat_of_ascii c in
  (((65 <=? n) && (n <=? 90)) || ((97 <=? n) && (n <=? 122)))%nat.

Definition is_digit (c : ascii) : bool :=
  match digit_of c with Some _ => true | None => false end.

(** The characters [int] can accept at all. *)
Definition int_char (c : ascii) : bool :=
  is_space c || is_digit c || Ascii.eqb c "_" || Ascii.eqb c "+"
  || Ascii.eqb c "-".

End Py.


(** ** Processes: a trace of calls, ended by a value, an exit or an exception *)

(** Values held by the dicts of the sources: text, booleans, integers and
    [None]. *)
Inductive value : Type :=
| VStr (s : string)
| VBool (b : bool)
| VInt (n : Z)
| VNone.

#[global] Instance value_eq_dec : EqDecision value.
Proof. solve_decision. Defined.

(** The source a jail is created from: [ReleaseGenerator(name=...)] or the
    [JailGenerator(template, ...)] of an existing jail. *)
Inductive resource : Type :=
| ReleaseGenerator (name : string)
| JailGenerator (template : string).

(** The methods of the logger called by the sources. *)
Inductive level : Type := spam | log | warn | error.

(** What a run does to its collaborators, in order. *)
Inductive event : Type :=
| Logger (l : level) (msg : string)
| NewResource (r : resource)
| GetFetched (r : resource)
| GetAvailable (r : resource)
| Fetch (r : resource)
| NewJail (i : nat) (jail_data : gmap string value)
| Create (i : nat) (r : resource).

Inductive result (A : Type) : Type :=
| Returned (a : A)
| Exited (status : Z)
| Raised (e : Py.exn).
Arguments Returned {A} a.
Arguments Exited {A} status.
Arguments Raised {A} e.

Definition proc (A : Type) : Type := list event * result A.

Definition ret {A} (a : A) : proc A := ([], Returned a).

Definition bind {A B} (m : proc A) (f : A -> proc B) : proc B :=
  match m with
  | (t, Returned a) => let (t', r) := f a in ((t ++ t')%list, r)
  | (t, Exited n) => (t, Exited n)
  | (t, Raised e) => (t, Raised e)
  end.

Declare Scope proc_scope.
Delimit Scope proc_scope with proc.
Notation "x <- m ;; k" := (bind m (fun x => k))
  (at level 100, m at next level, right associativity) : proc_scope.
Notation "m ;;; k" := (bind m (fun _ => k))
  (at level 100, right associativity) : proc_scope.

Definition emit (e : event) : proc unit := ([e], Returned tt).
Definition exit {A} (status : Z) : proc A := ([], Exited status).
Definition raise {A} (e : Py.exn) : proc A := ([], Raised e).

(** [try: body / except <classes>: handler] *)
Definition try_except {A} (body : proc A) (catches : Py.exn -> bool)
    (handler : proc A) : proc A :=
  match body with
  | (t, Raised e) =>
      if catches e then let (t', r) := handler in ((t ++ t')%list, r)
      else (t, Raised e)
  | other => other
  end.

(** [for x in l: body x] *)
Fixpoint for_each {A} (l : list A) (body : A -> proc unit) : proc unit :=
  match l with
  | [] => ret tt
  | x :: l' => (body x ;;; for_each l' body)%proc
  end.

(** [for x in l: s = body x s], for a loop that updates a local [s]. *)
Fixpoint for_fold {A S} (l : list A) (body : A -> S -> proc S) (s : S)
    : proc S :=
  match l with
  | [] => ret s
  | x :: l' => (s' <- body x s ;; for_fold l' body s')%proc
  end.

(** [range(n)] *)
Definition range (n : Z) : list nat := seq 0 (Z.to_nat n).

(** The status the operating system sees: the argument of [exit], or 1
    when the interpreter ends on an exception that nothing caught. *)
Definition exit_status {A} (r : result A) : Z :=
  match r with
  | Returned _ => 0
  | Exited n => n
  | Raised _ => 1
  end.

(** ** [iocage/cli/create.py] *)

Module create.

(** The collaborators of the command, as far as it observes them.  The
    jail of loop round [i] answers [humanreadable_name i] and its
    [create] returns ([None]) or raises ([Some e]); [fetch] likewise.

    The constructors ([Host], [ReleaseGenerator], [JailGenerator]), the
    attribute reads and the logger are taken to return normally, and the
    [JailGenerator] of a round to leave the [jail_data] it is handed
    unchanged: the trace records the dict as it is at the call.  Calls a
    collaborator makes of its own accord (a [create] that fetches) are not
    part of the trace, which lists what [cli] itself calls. *)
Record World : Type := {
  host_release_version : string;
  resource_name : resource -> string;
  fetched : resource -> bool;
  available : resource -> bool;
  fetch : resource -> option Py.exn;
  humanreadable_name : nat -> string;
  jail_create : nat -> resource -> option Py.exn;
}.

(** A value handed to the [--count] callback: text from the command
    line (or the default ["1"]), or an integer. *)
Inductive count_arg : Type :=
| CountStr (s : string)
| CountInt (n : Z).

Definition int (s : string) : proc Z :=
  match Py.int_of_str s with
  | Some n => ret n
  | None => raise Py.ValueError
  end.

Definition validate_count (value : count_arg) : proc Z :=
  match value with
  | CountStr value =>
      let value := Py.str_replace ","%char "" value in
      try_except
        (int value)
        Py.is_ValueError
        (emit (Logger error (value ++ " is not a valid integer.")) ;;;
         exit 1)%proc
  | CountInt n => ret n
  end.

(** [key, value = parts]: two parts, or [ValueError]. *)
Definition unpack2 (parts : list string) : proc (string * string) :=
  match parts with
  | [a; b] => ret (a, b)
  | _ => raise Py.ValueError
  end.

Definition call (e : event) (outcome : option Py.exn) : proc unit :=
  (emit e ;;;
   match outcome with
   | None => ret tt
   | Some x => raise x
   end)%proc.

Section cli.
Variable w : World.

Definition resolve_release (release : string) (no_fetch : bool)
    : proc resource :=
  (let resource := ReleaseGenerator release in
   emit (NewResource resource) ;;;
   emit (GetFetched resource) ;;;
   (if negb (fetched w resource) then
      emit (GetAvailable resource) ;;;
      (if negb (available w resource) then
         emit (Logger error
                 ("The release '" ++ resource_name w resource
                  ++ "' does not exist")) ;;;
         exit 1
       else ret tt) ;;;
      let msg :=
        "The release '" ++ resource_name w resource ++ "' is available,"
        ++ " but not downloaded yet" in
      if no_fetch then
        emit (Logger error msg) ;;;
        exit 1
      else
        emit (Logger spam msg) ;;;
        emit (Logger log
                "Automatically fetching release '{resource.name}'") ;;;
        call (Fetch resource) (fetch w resource)
    else ret tt) ;;;
   ret resource)%proc.

Definition apply_prop (prop : string) (jail_data : gmap string value)
    : proc (gmap string value) :=
  try_except
    (kv <- unpack2 (Py.str_split1 "="%char prop) ;;
     ret (<[kv.1 := VStr kv.2]> jail_data))%proc
    Py.is_ValueError_or_KeyError
    (emit (Logger error ("Invalid property " ++ prop)) ;;;
     exit 1)%proc.

Definition suffix (i : nat) (count : Z) : string :=
  if 1 <? count
  then " (" ++ Py.str_of_int (Z.of_nat i) ++ "/" ++ Py.str_of_int count
       ++ ")"
  else "".

Definition create_unit (jail_data : gmap string value)
    (resource : resource) (count : Z) (i : nat) : proc unit :=
  (emit (NewJail i jail_data) ;;;
   let suffix := suffix i count in
   try_except
     (call (Create i resource) (jail_create w i resource) ;;;
      let msg :=
        humanreadable_name w i ++ " successfully created"
        ++ " from " ++ resource_name w resource ++ "!" ++ suffix in
      emit (Logger log msg))
     Py.is_IocageException
     (let msg :=
        humanreadable_name w i ++ " could not be created!" ++ suffix in
      emit (Logger warn msg)))%proc.

(** Lines 89 to 154 of [cli]: the source is selected and resolved and
    [jail_data] is filled.  Nothing here depends on [count]. *)
Definition prepare (release template : option string)
    (props : list string) (basejail : bool)
    (basejail_type : option string) (name : option string)
    (no_fetch : bool) : proc (gmap string value * resource) :=
  (let jail_data : gmap string value := ∅ in
   release <-
     match release, template with
     | None, None =>
         emit (Logger spam
                 ("No release selected (-r, --release)."
                  ++ " Selecting host release '"
                  ++ host_release_version w ++ "' as default.")) ;;;
         ret (Some (host_release_version w))
     | _, _ => ret release
     end ;;
   let jail_data :=
     if Py.truthy name
     then <["name" := VStr (default "" name)]> jail_data
     else jail_data in
   resource <-
     match release, template with
     | Some release, _ => resolve_release release no_fetch
     | None, Some template =>
         let resource := JailGenerator template in
         emit (NewResource resource) ;;;
         ret resource
     | None, None =>
         emit (Logger error "No release or jail selected") ;;;
         exit 1
     end ;;
   let jail_data :=
     if basejail then <["basejail" := VBool true]> jail_data
     else jail_data in
   jail_data <-
     match basejail_type with
     | Some basejail_type =>
         (if negb basejail then
            emit (Logger error
                    "Cannot set --basejail-type without --basejail option") ;;;
            exit 1
          else ret tt) ;;;
         ret (<["basejail_type" := VStr basejail_type]> jail_data)
     | None => ret jail_data
     end ;;
   jail_data <- for_fold props apply_prop jail_data ;;
   ret (jail_data, resource))%proc.

(** Lines 157 to 176: the loop over [range(count)].  Every round hands
    the same [jail_data] to the new jail. *)
Definition batch (jail_data : gmap string value) (resource : resource)
    (count : Z) : proc unit :=
  for_each (range count) (create_unit jail_data resource count).

(** The arguments [pkglist], [empty] and [force] are accepted and not
    read. *)
Definition cli (release template : option string) (count : Z)
    (props : list string) (pkglist : option string) (basejail : bool)
    (basejail_type : option string) (empty : bool)
    (name : option string) (no_fetch force : bool) : proc unit :=
  (prepared <-
     prepare release template props basejail basejail_type name no_fetch ;;
   let errors := false in
   batch prepared.1 prepared.2 count ;;;
   exit (Z.b2z errors))%proc.

(** The command as the argument parser runs it: the [--count] callback
    first, then [cli] with its result. *)
Definition command (release template : option string) (count : count_arg)
    (props : list string) (pkglist : option string) (basejail : bool)
    (basejail_type : option string) (empty : bool)
    (name : option string) (no_fetch force : bool) : proc unit :=
  (count <- validate_count count ;;
   cli release template count props pkglist basejail basejail_type
     empty name no_fetch force)%proc.

End cli.

End create.

(** ** What a trace shows *)

Definition is_Fetch (e : event) : bool :=
  match e with Fetch _ => true | _ => false end.

Definition is_NewResource (e : event) : bool :=
  match e with NewResource _ => true | _ => false end.

Definition is_query (e : event) : bool :=
  match e with GetFetched _ | GetAvailable _ => true | _ => false end.

(** How often the fetch collaborator was invoked. *)
Definition fetches (t : list event) : nat := length (List.filter is_Fetch t).

(** How often a source object was built. *)
Definition resolutions (t : list event) : nat :=
  length (List.filter is_NewResource t).

(** How often the inventory was asked about a source. *)
Definition queries (t : list event) : nat := length (List.filter is_query t).

(** The units whose [create] was called, in order. *)
Definition attempted (t : list event) : list nat :=
  omap (fun e => match e with Create i _ => Some i | _ => None end) t.

(** The units whose jail object was built, with the data handed to it. *)
Definition constructed (t : list event) : list (nat * gmap string value) :=
  omap (fun e => match e with NewJail i d => Some (i, d) | _ => None end) t.

(** The outcome of a unit is the message that follows its [create] call:
    one at level [log] reports the jail created, one at level [warn]
    reports that it could not be created. *)
Inductive outcome : Type :=
| success (i : nat)
| failure (i : nat).

Fixpoint outcomes_from (cur : option nat) (t : list event) : list outcome :=
  match t with
  | [] => []
  | Create i _ :: t' => outcomes_from (Some i) t'
  | Logger log _ :: t' =>
      match cur with
      | Some i => success i :: outcomes_from None t'
      | None => outcomes_from None t'
      end
  | Logger warn _ :: t' =>
      match cur with
      | Some i => failure i :: outcomes_from None t'
      | None => outcomes_from None t'
      end
  | _ :: t' => outcomes_from cur t'
  end.

Definition outcomes (t : list event) : list outcome := outcomes_from None t.

(** The outcome the loop reports for unit [i], read off its [create]. *)
Definition unit_outcome (w : create.World) (r : resource) (i : nat) : outcome :=
  match create.jail_create w i r with
  | None => success i
  | Some _ => failure i
  end.

(** The events of one round of the loop. *)
Definition unit_trace (w : create.World) (jail_data : gmap string value)
    (r : resource) (count : Z) (i : nat) : list event :=
  [NewJail i jail_data; Create i r]
  ++ match create.jail_create w i r with
     | None =>
         [Logger log
            (create.humanreadable_name w i ++ " successfully created"
             ++ " from " ++ create.resource_name w r ++ "!"
             ++ create.suffix i count)]
     | Some e =>
         if Py.is_IocageException e
         then [Logger warn
                 (create.humanreadable_name w i ++ " could not be created!"
                  ++ create.suffix i count)]
         else []
     end.

(** Unit [i] raises nothing but the library's own errors. *)
Definition isolated (w : create.World) (r : resource) (i : nat) : Prop :=
  forall e, create.jail_create w i r = Some e -> Py.is_IocageException e = true.

(** Events of the first phase of [cli], before the loop. *)
Definition setup_event (e : event) : bool :=
  match e with
  | NewJail _ _ | Create _ _ => false
  | _ => true
  end.

(** Events of the loop: a jail built, a [create] called, and the message
    that reports the unit. *)
Definition round_event (e : event) : bool :=
  match e with
  | NewJail _ _ | Create _ _ | Logger log _ | Logger warn _ => true
  | _ => false
  end.

(** What building the source of a request adds to the trace when the
    source can be used as it is: a template, or a release already
    fetched. *)
Definition ready_source_events (r : resource) : list event :=
  match r with
  | ReleaseGenerator _ => [NewResource r; GetFetched r]
  | JailGenerator _ => [NewResource r]
  end.

(** A source that needs no fetch: a template, or a release the inventory
    reports as fetched. *)
Definition source_ready (w : create.World) (r : resource) : bool :=
  match r with
  | ReleaseGenerator _ => create.fetched w r
  | JailGenerator _ => true
  end.

(** The source [cli] builds: the release when one is given, else the
    template, else the release the host runs. *)
Definition selected_source (w : create.World)
    (release template : option string) : resource :=
  match release, template with
  | Some r, _ => ReleaseGenerator r
  | None, Some t => JailGenerator t
  | None, None => ReleaseGenerator (create.host_release_version w)
  end.

(** The note logged when neither a release nor a template is given. *)
Definition default_notice (w : create.World)
    (release template : option string) : list event :=
  match release, template with
  | None, None =>
      [Logger spam
         ("No release selected (-r, --release)."
          ++ " Selecting host release '"
          ++ create.host_release_version w ++ "' as default.")]
  | _, _ => []
  end.

(** [jail_data] before the override tokens are applied. *)
Definition base_jail_data (name : option string) (basejail : bool)
    (basejail_type : option string) : gmap string value :=
  let d : gmap string value := ∅ in
  let d := if Py.truthy name then <["name" := VStr (default "" name)]> d
           else d in
  let d := if basejail then <["basejail" := VBool true]> d else d in
  match basejail_type with
  | Some t => <["basejail_type" := VStr t]> d
  | None => d
  end.

(** The state of a release in the inventory, in the order [cli] asks. *)
Inductive availability : Type := fetched_local | available_remote | missing.

Definition state_of (w : create.World) (r : resource) : availability :=
  if create.fetched w r then fetched_local
  else if create.available w r then available_remote
  else missing.

(** ** Sample collaborators

    A host running 11.1-RELEASE whose sources are named by their selector,
    whose inventory answers [fetched_] and [available_] for every release,
    whose fetch succeeds, and whose unit [i] is called [jail<i>] and is
    created as [create_ i] says. *)
Definition sample_world (fetched_ available_ : bool)
    (create_ : nat -> option Py.exn) : create.World :=
  {| create.host_release_version := "11.1-RELEASE";
     create.resource_name :=
       fun r => match r with
                | ReleaseGenerator n => n
                | JailGenerator t => t
                end;
     create.fetched := fun _ => fetched_;
     create.available := fun _ => available_;
     create.fetch := fun _ => None;
     create.humanreadable_name :=
       fun i => "jail" ++ Py.str_of_int (Z.of_nat i);
     create.jail_create := fun i _ => create_ i |}.

(** The same host with releases available and not fetched, and a fetch
    that raises [e]. *)
Definition offline_world (e : Py.exn) : create.World :=
  {| create.host_release_version := "11.1-RELEASE";
     create.resource_name :=
       fun r => match r with
                | ReleaseGenerator n => n
                | JailGenerator t => t
                end;
     create.fetched := fun _ => false;
     create.available := fun _ => true;
     create.fetch := fun _ => Some e;
     create.humanreadable_name :=
       fun i => "jail" ++ Py.str_of_int (Z.of_nat i);
     create.jail_create := fun _ _ => None |}.

(** Every unit is created, but for unit [k], which raises [e]. *)
Definition failing_at (k : nat) (e : Py.exn) (i : nat) : option Py.exn :=
  if (i =? k)%nat then Some e else None.

(** ** [libiocage/lib/Config/Type/JSON.py] *)

Module ConfigJSON.

Definition dquote : ascii := "034"%char.
Definition backslash : ascii := "092"%char.

(** *** Writing *)

Definition hex_digit (n : N) : ascii :=
  if (n <? 10)%N then ascii_of_N (48 + n) else ascii_of_N (87 + n).

(** One character of a text inside its quotes: the quote and the
    backslash are escaped, and every character outside the printable
    ASCII range is written as an escape. *)
Definition escape_char (c : ascii) : string :=
  let n := N_of_ascii c in
  if Ascii.eqb c dquote then String backslash (String dquote "")
  else if Ascii.eqb c backslash then String backslash (String backslash "")
  else if (n =? 10)%N then String backslash "n"
  else if (n =? 13)%N then String backslash "r"
  else if (n =? 9)%N then String backslash "t"
  else if (n =? 8)%N then String backslash "b"
  else if (n =? 12)%N then String backslash "f"
  else if (n <? 32)%N || (126 <? n)%N then
    String backslash
      (String "u" (String "0" (String "0"
         (String (hex_digit (n / 16)) (String (hex_digit (n mod 16)) "")))))
  else String c "".

Fixpoint escape (s : string) : string :=
  match s with
  | EmptyString => ""
  | String c s' => escape_char c ++ escape s'
  end.

Definition quote (s : string) : string :=
  String dquote (escape s ++ String dquote "").

Definition encode_value (v : value) : string :=
  match v with
  | VStr s => quote s
  | VBool true => "true"
  | VBool false => "false"
  | VInt n => Py.str_of_int n
  | VNone => "null"
  end.

Definition encode_member (kv : string * value) : string :=
  quote kv.1 ++ ": " ++ encode_value kv.2.

Fixpoint encode_members (l : list (string * value)) : string :=
  match l with
  | [] => ""
  | [kv] => encode_member kv
  | kv :: l' => encode_member kv ++ ", " ++ encode_members l'
  end.

(** Modelled from the spec: [libiocage.lib.helpers.to_json], which the
    sources call and do not contain.  The persisted format is a flat
    object of property name to value; it is written here the way the
    interpreter's [json.dumps] writes such a dict. *)
Definition to_json (data : gmap string value) : string :=
  "{" ++ encode_members (map_to_list data) ++ "}".

(** *** Reading: [json.load] on flat objects *)

Definition is_ws (c : ascii) : bool :=
  let n := N_of_ascii c in
  ((n =? 32) || (n =? 9) || (n =? 10) || (n =? 13))%N.

Fixpoint skip_ws (s : string) : string :=
  match s with
  | String c s' => if is_ws c then skip_ws s' else s
  | EmptyString => ""
  end.

Fixpoint all_ws (s : string) : bool :=
  match s with
  | EmptyString => true
  | String c s' => is_ws c && all_ws s'
  end.

Definition hex_value (c : ascii) : option N :=
  let n := N_of_ascii c in
  if (48 <=? n)%N && (n <=? 57)%N then Some (n - 48)%N
  else if (97 <=? n)%N && (n <=? 102)%N then Some (n - 87)%N
  else if (65 <=? n)%N && (n <=? 70)%N then Some (n - 55)%N
  else None.

Definition hex4 (a b c d : ascii) : option N :=
  match hex_value a, hex_value b, hex_value c, hex_value d with
  | Some x, Some y, Some z, Some t =>
      Some (((x * 16 + y) * 16 + z) * 16 + t)%N
  | _, _, _, _ => None
  end.

Definition unescape (c : ascii) : option ascii :=
  if Ascii.eqb c dquote then Some dquote
  else if Ascii.eqb c backslash then Some backslash
  else match c with
       | "/"%char => Some "/"%char
       | "b"%char => Some "008"%char
       | "f"%char => Some "012"%char
       | "n"%char => Some "010"%char
       | "r"%char => Some "013"%char
       | "t"%char => Some "009"%char
       | _ => None
       end.

Definition push (c : ascii) (o : option (string * string))
    : option (string * string) :=
  match o with
  | Some (t, r) => Some (String c t, r)
  | None => None
  end.

(** The text after an opening quote, up to its closing quote.  A raw
    control character is an error; an escape above U+00FF has no
    character in this model and is [None] as well. *)
Fixpoint scan_string (s : string) : option (string * string) :=
  match s with
  | EmptyString => None
  | String c s' =>
      if Ascii.eqb c dquote then Some ("", s')
      else if Ascii.eqb c backslash then
        match s' with
        | String "u"%char (String h1 (String h2 (String h3 (String h4 r)))) =>
            match hex4 h1 h2 h3 h4 with
            | Some n =>
                if (n <? 256)%N then push (ascii_of_N n) (scan_string r)
                else None
            | None => None
            end
        | String e s'' =>
            match unescape e with
            | Some c' => push c' (scan_string s'')
            | None => None
            end
        | EmptyString => None
        end
      else if (N_of_ascii c <? 32)%N then None
      else push c (scan_string s')
  end.

Fixpoint scan_uint (s : string) : uint * string :=
  match s with
  | String c s' =>
      match Py.digit_of c with
      | Some D => let (d, r) := scan_uint s' in (D d, r)
      | None => (Nil, s)
      end
  | EmptyString => (Nil, "")
  end.

(** An integer: an optional minus sign, then [0] or digits that do not
    start with [0].  A fraction or an exponent makes the number a float,
    which a flat store of this model does not hold. *)
Definition scan_int (s : string) : option (Z * string) :=
  let (neg, body) :=
    match s with
    | String "-"%char s' => (true, s')
    | _ => (false, s)
    end in
  match scan_uint body with
  | (Nil, _) => None
  | (D0 (D0 _ | D1 _ | D2 _ | D3 _ | D4 _ | D5 _ | D6 _ | D7 _ | D8 _ | D9 _), _)
      => None
  | (d, r) =>
      match r with
      | String "."%char _ | String "e"%char _ | String "E"%char _ => None
      | _ => Some (Z.of_int (if neg then Neg d else Pos d), r)
      end
  end.

Fixpoint strip_prefix (p s : string) : option string :=
  match p, s with
  | EmptyString, _ => Some s
  | String a p', String b s' =>
      if Ascii.eqb a b then strip_prefix p' s' else None
  | String _ _, EmptyString => None
  end.

Definition scan_value (s : string) : option (value * string) :=
  match s with
  | String c s' =>
      if Ascii.eqb c dquote then
        match scan_string s' with
        | Some (t, r) => Some (VStr t, r)
        | None => None
        end
      else
        match strip_prefix "true" s, strip_prefix "false" s,
              strip_prefix "null" s with
        | Some r, _, _ => Some (VBool true, r)
        | _, Some r, _ => Some (VBool false, r)
        | _, _, Some r => Some (VNone, r)
        | None, None, None =>
            match scan_int s with
            | Some (n, r) => Some (VInt n, r)
            | None => None
            end
        end
  | EmptyString => None
  end.

(** The members of an object, from the quote of a key to the closing
    brace; a key written twice keeps its last value.  [fuel] bounds the
    number of members. *)
Fixpoint scan_members (fuel : nat) (s : string) (acc : gmap string value)
    : option (gmap string value * string) :=
  match fuel with
  | O => None
  | S fuel' =>
      match s with
      | String c s1 =>
          if Ascii.eqb c dquote then
            match scan_string s1 with
            | Some (k, s2) =>
                match skip_ws s2 with
                | String ":"%char s3 =>
                    match scan_value (skip_ws s3) with
                    | Some (v, s4) =>
                        match skip_ws s4 with
                        | String ","%char s5 =>
                            scan_members fuel' (skip_ws s5) (<[k := v]> acc)
                        | String "}"%char s5 => Some (<[k := v]> acc, s5)
                        | _ => None
                        end
                    | None => None
                    end
                | _ => None
                end
            | None => None
            end
          else None
      | EmptyString => None
      end
  end.

(** [json.load] of the whole text of a stream, for documents that are a
    flat object of texts, booleans, integers and [null].  [None] is a
    decoding error, or a document outside that shape. *)
Definition json_load (data : string) : option (gmap string value) :=
  match skip_ws data with
  | String "{"%char s1 =>
      match skip_ws s1 with
      | String "}"%char s2 => if all_ws s2 then Some ∅ else None
      | s2 =>
          match scan_members (String.length data) s2 ∅ with
          | Some (m, r) => if all_ws r then Some m else None
          | None => None
          end
      end
  | _ => None
  end.

(** *** The class *)

Definition config_type : string := "json".

Definition map_input (data : string) : option (gmap string value) :=
  json_load data.

Definition map_output (data : gmap string value) : string :=
  to_json data.

(** *** Two notions for the proofs *)

(** What follows a value inside an object: a comma or the closing
    brace. *)
Definition delimiter (rest : string) : Prop :=
  exists r, rest = String "," r \/ rest = String "}" r.

(** What reading one member does to the store read so far. *)
Definition put (m : gmap string value) (kv : string * value)
    : gmap string value :=
  <[kv.1 := kv.2]> m.

End ConfigJSON.

(** * Properties *)

(** ** Integer literals *)

Module PyFacts.
Import Py.

Lemma alpha_not_int_char c : is_alpha c = true -> int_char c = false.
Proof.
  destruct c as [[] [] [] [] [] [] [] []]; vm_compute; congruence.
Qed.

Lemma scan_digits_string_of_uint d :
  scan_digits false (NilEmpty.string_of_uint d) = Some (d, "").
Proof. induction d; simpl; rewrite ?IHd; reflexivity. Qed.

Lemma int_of_str_digits neg d :
  d <> Nil ->
  int_of_str
    ((if neg : bool then String "-" "" else "") ++ NilEmpty.string_of_uint d)
  = Some (Z.of_int (if neg then Neg d else Pos d)).
Proof.
  intros Hd. unfold int_of_str.
  destruct neg, d; try congruence;
    simpl; rewrite scan_digits_string_of_uint; reflexivity.
Qed.

Lemma int_of_str_str_of_int n : int_of_str (str_of_int n) = Some n.
Proof.
  rewrite <- (DecimalZ.of_to n) at 2.
  unfold str_of_int. destruct n as [|p|p]; [reflexivity| |];
    cbn [Z.to_int NilZero.string_of_int]; unfold NilZero.string_of_uint;
    pose proof (DecimalPos.Unsigned.to_uint_nonnil p) as Hp;
    destruct (Pos.to_uint p) eqn:E; try congruence; rewrite <- E in *.
  all: first [ apply (int_of_str_digits false _ Hp)
             | apply (int_of_str_digits true _ Hp) ].
Qed.

Lemma all_space_chars r c :
  all_space r = true -> In c (list_ascii_of_string r) -> is_space c = true.
Proof.
  induction r as [|a r IH]; simpl; [tauto|].
  intros [Ha Hr]%andb_true_iff [<-|Hc]; auto.
Qed.

Lemma scan_digits_chars b s d r c :
  scan_digits b s = Some (d, r) ->
  In c (list_ascii_of_string s) ->
  (is_digit c || Ascii.eqb c "_") = true \/ In c (list_ascii_of_string r).
Proof.
  revert b d r. induction s as [|a s IH]; simpl; [tauto|].
  intros b d r Hscan [<-|Hc].
  - unfold is_digit. destruct (Ascii.eqb a "_"); [left; apply orb_true_r|].
    destruct (digit_of a); [now left|].
    destruct b; [discriminate|]. injection Hscan as _ <-. right. now left.
  - destruct (Ascii.eqb a "_").
    + destruct b; [discriminate|]. eauto.
    + destruct (digit_of a).
      * destruct (scan_digits false s) as [[d' r']|] eqn:E; [|discriminate].
        injection Hscan as _ <-. eauto.
      * destruct b; [discriminate|]. injection Hscan as _ <-.
        right. now right.
Qed.

Lemma lstrip_chars s c :
  In c (list_ascii_of_string s) ->
  is_space c = true \/ In c (list_ascii_of_string (lstrip s)).
Proof.
  induction s as [|a s IH]; simpl; [tauto|].
  destruct (is_space a) eqn:Ha.
  - intros [<-|Hc]; auto.
  - intros H. right. exact H.
Qed.

Lemma take_sign_chars s c :
  In c (list_ascii_of_string s) ->
  (Ascii.eqb c "+" || Ascii.eqb c "-") = true
  \/ In c (list_ascii_of_string (take_sign s).2).
Proof.
  destruct s as [|a s]; simpl; [tauto|].
  intros [<-|Hc].
  - destruct (Ascii.eqb_spec a "+") as [->|Hp]; [now left|].
    destruct (Ascii.eqb_spec a "-") as [->|Hm]; [now left|].
    right. unfold take_sign.
    destruct a as [[] [] [] [] [] [] [] []]; simpl; auto; congruence.
  - right. unfold take_sign.
    destruct a as [[] [] [] [] [] [] [] []]; simpl; auto.
Qed.

(** A text [int] accepts is made of white space, digits, underscores and
    signs only. *)
Lemma int_of_str_chars s n c :
  int_of_str s = Some n ->
  In c (list_ascii_of_string s) -> int_char c = true.
Proof.
  unfold int_of_str, int_char. intros Hint Hc.
  destruct (lstrip_chars s c Hc) as [->|Hc1]; [reflexivity|].
  destruct (take_sign_chars _ c Hc1) as [Hs|Hc2].
  { apply orb_true_iff in Hs as [->| ->]; rewrite ?orb_true_r; reflexivity. }
  destruct (take_sign (lstrip s)) as [neg body]; simpl in Hc2.
  assert (exists d r, scan_digits false body = Some (d, r)
                      /\ all_space r = true) as (d & r & Hscan & Hr).
  { destruct body as [|a body']; [discriminate|].
    destruct (scan_digits false (String a body')) as [[d r]|];
      [|destruct a as [[] [] [] [] [] [] [] []]; discriminate].
    exists d, r. split; [reflexivity|].
    destruct (all_space r); [reflexivity|].
    destruct a as [[] [] [] [] [] [] [] []]; destruct d; discriminate. }
  destruct (scan_digits_chars _ _ _ _ c Hscan Hc2) as [Hd|Hc3].
  - apply orb_true_iff in Hd as [->| ->]; rewrite ?orb_true_r; reflexivity.
  - now rewrite (all_space_chars r c Hr Hc3).
Qed.

Lemma int_of_str_alpha s c :
  In c (list_ascii_of_string s) -> is_alpha c = true -> int_of_str s = None.
Proof.
  intros Hc Ha. destruct (int_of_str s) as [n|] eqn:E; [|reflexivity].
  pose proof (int_of_str_chars s n c E Hc) as H.
  rewrite (alpha_not_int_char c Ha) in H. discriminate.
Qed.

Lemma str_replace_keeps old s c :
  In c (list_ascii_of_string s) -> c <> old ->
  In c (list_ascii_of_string (str_replace old "" s)).
Proof.
  intros Hc Hne. induction s as [|a s IH]; simpl in *; [tauto|].
  destruct (Ascii.eqb_spec a old) as [->|Ha].
  - destruct Hc as [<-|Hc]; [congruence|]. simpl. auto.
  - simpl. destruct Hc as [<-|Hc]; auto.
Qed.

End PyFacts.

(** ** The [--count] callback *)

Section validate_count.
Import create.

Lemma validate_count_accepts s n :
  Py.int_of_str (Py.str_replace "," "" s) = Some n ->
  validate_count (CountStr s) = ([], Returned n).
Proof. intros H. unfold validate_count, int. now rewrite H. Qed.

Lemma validate_count_refuses s :
  Py.int_of_str (Py.str_replace "," "" s) = None ->
  validate_count (CountStr s)
  = ([Logger error (Py.str_replace "," "" s ++ " is not a valid integer.")],
     Exited 1).
Proof. intros H. unfold validate_count, int. now rewrite H. Qed.

Lemma alpha_not_comma c : Py.is_alpha c = true -> c <> ","%char.
Proof. intros H ->. discriminate. Qed.

End validate_count.

(** C8.  [validate_count] removes the commas of a text and returns the
    integer the remaining digits denote: every text that is the decimal
    writing of [n] with commas put anywhere is normalized to [n], and
    ["1,000"] to 1000.  A text with a letter in it, such as ["abc"], is
    refused: an error is logged and the process exits with status 1, so
    that the command never runs [cli]. *)
Theorem validate_count_normalizes :
  (forall s n,
     Py.str_replace "," "" s = Py.str_of_int n ->
     create.validate_count (create.CountStr s) = ([], Returned n))
  /\ (forall s c,
        In c (list_ascii_of_string s) -> Py.is_alpha c = true ->
        create.validate_count (create.CountStr s)
        = ([Logger error
              (Py.str_replace "," "" s ++ " is not a valid integer.")],
           Exited 1)
        /\ forall w release template props pkglist basejail basejail_type
             empty name no_fetch force,
            create.command w release template (create.CountStr s) props
              pkglist basejail basejail_type empty name no_fetch force
            = ([Logger error
                  (Py.str_replace "," "" s ++ " is not a valid integer.")],
               Exited 1))
  /\ create.validate_count (create.CountStr "1,000") = ([], Returned 1000)
  /\ create.validate_count (create.CountStr "abc")
     = ([Logger error "abc is not a valid integer."], Exited 1).
Proof.
  split; [|split; [|split; reflexivity]].
  - intros s n H. apply validate_count_accepts.
    rewrite H. apply PyFacts.int_of_str_str_of_int.
  - intros s c Hc Ha.
    assert (create.validate_count (create.CountStr s)
            = ([Logger error
                  (Py.str_replace "," "" s ++ " is not a valid integer.")],
               Exited 1)) as E.
    { apply validate_count_refuses.
      apply (PyFacts.int_of_str_alpha _ c); [|exact Ha].
      apply PyFacts.str_replace_keeps; [exact Hc|].
      now apply alpha_not_comma. }
    split; [exact E|]. intros. unfold create.command. now rewrite E.
Qed.

Lemma validate_count_normalizes_witness :
  create.validate_count (create.CountStr "12,345,678") = ([], Returned 12345678)
  /\ create.validate_count (create.CountStr "1,0o0")
     = ([Logger error "10o0 is not a valid integer."], Exited 1).
Proof.
  split.
  - apply (proj1 validate_count_normalizes "12,345,678" 12345678).
    reflexivity.
  - apply (proj1 (proj2 validate_count_normalizes) "1,0o0" "o"%char).
    + simpl. tauto.
    + reflexivity.
Defined.

(** ** Override tokens *)

Module PropFacts.
Import create.

Abbreviation chars := list_ascii_of_string.

Lemma chars_app a b : chars (a ++ b) = (chars a ++ chars b)%list.
Proof. induction a as [|c a IH]; simpl; [reflexivity|now rewrite IH]. Qed.

Lemma split1_no_sep sep s :
  ~ In sep (chars s) -> Py.str_split1 sep s = [s].
Proof.
  induction s as [|a s IH]; simpl; [reflexivity|].
  intros H. destruct (Ascii.eqb_spec a sep) as [->|Ha]; [tauto|].
  rewrite IH by tauto. reflexivity.
Qed.

Lemma split1_sep sep k v :
  ~ In sep (chars k) -> Py.str_split1 sep (k ++ String sep v) = [k; v].
Proof.
  induction k as [|a k IH]; simpl.
  - intros _. now rewrite Ascii.eqb_refl.
  - intros H. destruct (Ascii.eqb_spec a sep) as [->|Ha]; [tauto|].
    rewrite IH by tauto. reflexivity.
Qed.

(** A text either has no separator, or is a key without separator, the
    separator, and the rest. *)
Lemma split1_cases sep s :
  ~ In sep (chars s)
  \/ exists k v, s = k ++ String sep v /\ ~ In sep (chars k).
Proof.
  induction s as [|a s IH]; simpl; [left; tauto|].
  destruct (Ascii.eqb_spec a sep) as [->|Ha].
  - right. exists "", s. simpl. tauto.
  - destruct IH as [IH|(k & v & -> & Hk)].
    + left. tauto.
    + right. exists (String a k), v. simpl. split; [reflexivity|tauto].
Qed.

Section tokens.

Lemma apply_prop_ok k v jd :
  ~ In "="%char (chars k) ->
  apply_prop (k ++ String "=" v) jd = ([], Returned (<[k := VStr v]> jd)).
Proof.
  intros Hk. unfold apply_prop. now rewrite split1_sep.
Qed.

Lemma apply_prop_bad p jd :
  ~ In "="%char (chars p) ->
  apply_prop p jd
  = ([Logger error ("Invalid property " ++ p)], Exited 1).
Proof.
  intros Hp. unfold apply_prop. now rewrite split1_no_sep.
Qed.

(** The loop over the tokens either applies them all and logs nothing,
    or stops at a token without ['='] with one error and status 1. *)
Lemma props_loop_cases props jd :
  (Forall (fun p => In "="%char (chars p)) props
   /\ exists jd', for_fold props apply_prop jd = ([], Returned jd'))
  \/ (exists p, In p props /\ ~ In "="%char (chars p)
                /\ for_fold props apply_prop jd
                   = ([Logger error ("Invalid property " ++ p)], Exited 1)).
Proof.
  revert jd. induction props as [|p props IH]; intros jd; simpl.
  - left. split; [constructor|]. now exists jd.
  - destruct (split1_cases "=" p) as [Hp|(k & v & -> & Hk)].
    + right. exists p. rewrite apply_prop_bad by exact Hp.
      simpl. tauto.
    + rewrite apply_prop_ok by exact Hk. simpl.
      destruct (IH (<[k := VStr v]> jd)) as [[Hall (jd' & ->)]|(q & Hq & Hbad & ->)].
      * left. split; [|now exists jd'].
        constructor; [|exact Hall].
        rewrite chars_app. apply in_or_app. right. now left.
      * right. exists q. tauto.
Qed.

End tokens.
End PropFacts.

(** ** The loop over the units *)

Module BatchFacts.
Import create.

Section with_world.
Variable w : World.
Variable jd : gmap string value.
Variable res : resource.
Variable count : Z.

Lemma create_unit_eq i :
  create_unit w jd res count i
  = (unit_trace w jd res count i,
     match jail_create w i res with
     | None => Returned tt
     | Some e => if Py.is_IocageException e then Returned tt else Raised e
     end).
Proof.
  unfold create_unit, unit_trace, call.
  destruct (jail_create w i res) as [e|]; [|reflexivity].
  destruct e; reflexivity.
Qed.

Lemma for_each_isolated l :
  (forall i, In i l -> isolated w res i) ->
  for_each l (create_unit w jd res count)
  = (flat_map (unit_trace w jd res count) l, Returned tt).
Proof.
  induction l as [|i l IH]; intros H; simpl; [reflexivity|].
  rewrite create_unit_eq, IH by (intros; apply H; now right).
  pose proof (H i (or_introl eq_refl)) as Hi. unfold isolated in Hi.
  unfold unit_trace.
  destruct (jail_create w i res) as [e|]; [rewrite (Hi e eq_refl)|];
    reflexivity.
Qed.

Lemma for_each_foreign l1 i l2 e :
  (forall j, In j l1 -> isolated w res j) ->
  jail_create w i res = Some e -> Py.is_IocageException e = false ->
  for_each (l1 ++ i :: l2)%list (create_unit w jd res count)
  = ((flat_map (unit_trace w jd res count) l1
      ++ [NewJail i jd; Create i res])%list, Raised e).
Proof.
  intros Hl1 Hi He. induction l1 as [|j l1 IH]; simpl.
  - rewrite create_unit_eq. unfold unit_trace. rewrite Hi, He. reflexivity.
  - rewrite create_unit_eq, IH by (intros; apply Hl1; now right).
    pose proof (Hl1 j (or_introl eq_refl)) as Hj. unfold isolated in Hj.
    unfold unit_trace at 1.
    destruct (jail_create w j res) as [e'|]; [rewrite (Hj e' eq_refl)|];
      reflexivity.
Qed.

(** *** What the observers read in the rounds *)

Lemma outcomes_units l t :
  (forall i, In i l -> isolated w res i) ->
  outcomes_from None (flat_map (unit_trace w jd res count) l ++ t)%list
  = (map (unit_outcome w res) l ++ outcomes_from None t)%list.
Proof.
  induction l as [|i l IH]; intros H; simpl; [reflexivity|].
  rewrite <- IH by (intros; apply H; now right).
  pose proof (H i (or_introl eq_refl)) as Hi. unfold isolated in Hi.
  unfold unit_trace, unit_outcome.
  destruct (jail_create w i res) as [e|]; [rewrite (Hi e eq_refl)|];
    reflexivity.
Qed.

Lemma attempted_units l :
  attempted (flat_map (unit_trace w jd res count) l) = l.
Proof.
  unfold attempted. induction l as [|i l IH]; simpl; [reflexivity|].
  rewrite omap_app, IH. unfold unit_trace.
  destruct (jail_create w i res) as [e|];
    [destruct (Py.is_IocageException e)|]; reflexivity.
Qed.

Lemma constructed_units l :
  constructed (flat_map (unit_trace w jd res count) l)
  = map (fun i => (i, jd)) l.
Proof.
  unfold constructed. induction l as [|i l IH]; simpl; [reflexivity|].
  rewrite omap_app, IH. unfold unit_trace.
  destruct (jail_create w i res) as [e|];
    [destruct (Py.is_IocageException e)|]; reflexivity.
Qed.

Lemma units_no_source_event l :
  List.filter is_Fetch (flat_map (unit_trace w jd res count) l) = []
  /\ List.filter is_NewResource (flat_map (unit_trace w jd res count) l)
     = [].
Proof.
  induction l as [|i l [IH1 IH2]]; simpl; [split; reflexivity|].
  rewrite !List.filter_app, IH1, IH2. unfold unit_trace.
  destruct (jail_create w i res) as [e|];
    [destruct (Py.is_IocageException e)|]; split; reflexivity.
Qed.

(** Whatever the units raise, the rounds touch no source, hand the
    same data to every jail and never exit. *)
Lemma rounds_general l :
  let run := for_each l (create_unit w jd res count) in
  List.filter is_Fetch run.1 = []
  /\ List.filter is_NewResource run.1 = []
  /\ (forall i d, In (i, d) (constructed run.1) -> d = jd)
  /\ (forall n, run.2 <> Exited n).
Proof.
  induction l as [|i l IH]; simpl.
  - repeat split; try reflexivity; [intros ? ? []|discriminate].
  - rewrite create_unit_eq. simpl in IH.
    destruct (for_each l (create_unit w jd res count)) as [tl rl].
    destruct IH as (IH1 & IH2 & IH3 & IH4). simpl in *.
    unfold unit_trace.
    destruct (jail_create w i res) as [e|];
      [destruct (Py.is_IocageException e)|]; simpl;
      rewrite ?IH1, ?IH2;
      (split; [reflexivity|]; split; [reflexivity|]; split;
       [intros j d [[= _ <-]|H]; [reflexivity|eauto; try contradiction]
       |first [exact IH4 | discriminate]]).
Qed.

End with_world.

(** *** The first phase logs nothing the observers of units read *)

Lemma outcomes_setup t0 t :
  forallb setup_event t0 = true ->
  outcomes_from None (t0 ++ t)%list = outcomes_from None t.
Proof.
  induction t0 as [|e t0 IH]; simpl; [reflexivity|].
  intros [He H0]%andb_true_iff.
  destruct e as [[] ?| | | | | |]; try discriminate; auto.
Qed.

Lemma attempted_setup t0 :
  forallb setup_event t0 = true -> attempted t0 = [].
Proof.
  unfold attempted. induction t0 as [|e t0 IH]; simpl; [reflexivity|].
  intros [He H0]%andb_true_iff.
  destruct e; try discriminate; simpl; auto.
Qed.

Lemma constructed_setup t0 :
  forallb setup_event t0 = true -> constructed t0 = [].
Proof.
  unfold constructed. induction t0 as [|e t0 IH]; simpl; [reflexivity|].
  intros [He H0]%andb_true_iff.
  destruct e; try discriminate; simpl; auto.
Qed.

End BatchFacts.

(** ** The first phase, and [cli] as a whole *)

Module CliFacts.
Import create.

Ltac split_inputs w release template name basejail basejail_type no_fetch :=
  unfold prepare, resolve_release, call;
  destruct release as [?release|], template as [?template|],
    (Py.truthy name), basejail, basejail_type as [?basejail_type|], no_fetch;
  simpl;
  repeat match goal with
    | |- context [fetched w ?r] => destruct (fetched w r) eqn:?; simpl
    | |- context [available w ?r] => destruct (available w r) eqn:?; simpl
    | |- context [fetch w ?r] => destruct (fetch w r) eqn:?; simpl
    end.

Ltac split_props props :=
  try match goal with
    | |- context [for_fold props apply_prop ?j] =>
        let H := fresh "Hprops" in
        destruct (PropFacts.props_loop_cases props j)
          as [[? (? & H)]|(? & ? & ? & H)];
        rewrite H; simpl
    end.

Section with_world.
Variable w : World.
Variables (release template : option string) (props : list string)
  (basejail : bool) (basejail_type name : option string)
  (no_fetch : bool).

Let prepared :=
  prepare w release template props basejail basejail_type name no_fetch.

(** The first phase builds no jail, builds its source once and fetches
    at most once; when it exits, the status is 1. *)
Lemma prepare_trace :
  forallb setup_event prepared.1 = true
  /\ List.filter is_NewResource prepared.1
     = [NewResource (selected_source w release template)]
  /\ (fetches prepared.1 <= 1)%nat
  /\ (forall n, prepared.2 = Exited n -> n = 1).
Proof.
  subst prepared.
  split_inputs w release template name basejail basejail_type no_fetch;
    split_props props;
    (split; [reflexivity|];
     split; [reflexivity|];
     split; [unfold fetches; simpl; lia|];
     intros n Hn; first [discriminate | now injection Hn as <-]).
Qed.

(** When the first phase returns, it returns the selected source and
    the base data with every token applied. *)
Lemma prepare_returned t0 jd res :
  prepared = (t0, Returned (jd, res)) ->
  res = selected_source w release template
  /\ for_fold props apply_prop
       (base_jail_data name basejail basejail_type)
     = ([], Returned jd).
Proof.
  subst prepared. unfold base_jail_data.
  split_inputs w release template name basejail basejail_type no_fetch;
    split_props props; intros [= <- <- <-] || discriminate;
    split; reflexivity || assumption.
Qed.

(** A token without ['='] keeps the first phase from returning. *)
Lemma prepare_bad_token p :
  In p props -> ~ In "="%char (list_ascii_of_string p) ->
  forall x, prepared.2 <> Returned x.
Proof.
  intros Hp Hbad x Hret.
  destruct prepared as [t0 r0] eqn:E. simpl in Hret. subst r0.
  destruct x as [jd res]. apply prepare_returned in E as [_ E].
  destruct (PropFacts.props_loop_cases props
              (base_jail_data name basejail basejail_type))
    as [[Hall _]|(q & _ & _ & Hq)].
  - rewrite Forall_forall in Hall. apply Hbad, Hall.
    now apply list_elem_of_In.
  - rewrite Hq in E. discriminate.
Qed.

End with_world.
End CliFacts.

(** ** [cli] from its two phases *)

Module RunFacts.
Import create.

Lemma for_fold_app {A S} (l1 l2 : list A) (body : A -> S -> proc S) s :
  for_fold (l1 ++ l2)%list body s
  = bind (for_fold l1 body s) (for_fold l2 body).
Proof.
  revert s. induction l1 as [|x l1 IH]; intros s; simpl.
  - destruct (for_fold l2 body s) as [t r]. reflexivity.
  - destruct (body x s) as [t [s'| |]]; simpl; [|reflexivity|reflexivity].
    rewrite IH. destruct (for_fold l1 body s') as [t1 [s1| |]]; simpl;
      [|reflexivity|reflexivity].
    destruct (for_fold l2 body s1) as [t2 r2]. now rewrite app_assoc.
Qed.

(** Tokens that do not name [key] leave its value alone. *)
Lemma props_loop_preserves key props jd t jd' :
  for_fold props apply_prop jd = (t, Returned jd') ->
  (forall p v, In p props -> p <> key ++ String "=" v) ->
  jd' !! key = jd !! key.
Proof.
  revert jd t. induction props as [|p props IH]; intros jd t; simpl.
  - now intros [= _ <-].
  - intros Hrun Hkey.
    destruct (PropFacts.split1_cases "=" p) as [Hp|(k & v & -> & Hk)].
    + rewrite PropFacts.apply_prop_bad in Hrun by exact Hp. discriminate.
    + rewrite PropFacts.apply_prop_ok in Hrun by exact Hk. simpl in Hrun.
      destruct (for_fold props apply_prop (<[k := VStr v]> jd))
        as [t' r'] eqn:E.
      injection Hrun as _ ->.
      rewrite (IH _ _ E) by (intros; apply Hkey; now right).
      apply lookup_insert_ne. intros ->.
      now apply (Hkey _ v (or_introl eq_refl)).
Qed.

(** The last token decides the value of its key. *)
Lemma props_loop_last props k v jd t jd' :
  ~ In "="%char (list_ascii_of_string k) ->
  for_fold (props ++ [(k ++ String "=" v)%string])%list apply_prop jd
  = (t, Returned jd') ->
  jd' !! k = Some (VStr v).
Proof.
  intros Hk. rewrite for_fold_app.
  destruct (for_fold props apply_prop jd) as [t1 [jd1| |]]; simpl;
    [|discriminate|discriminate].
  rewrite PropFacts.apply_prop_ok by exact Hk. simpl.
  intros [= _ <-]. apply lookup_insert_eq.
Qed.


Section with_request.
Variable w : World.
Variables (release template : option string) (count : Z)
  (props : list string) (pkglist : option string) (basejail : bool)
  (basejail_type : option string) (empty : bool) (name : option string)
  (no_fetch force : bool).

Let prepared :=
  prepare w release template props basejail basejail_type name no_fetch.
Let run :=
  cli w release template count props pkglist basejail basejail_type
    empty name no_fetch force.

Lemma cli_prepare_exited t0 n :
  prepared = (t0, Exited n) -> run = (t0, Exited n).
Proof. subst prepared run. unfold cli. now intros ->. Qed.

Lemma cli_prepare_raised t0 e :
  prepared = (t0, Raised e) -> run = (t0, Raised e).
Proof. subst prepared run. unfold cli. now intros ->. Qed.

Lemma cli_prepare_returned t0 jd res :
  prepared = (t0, Returned (jd, res)) ->
  run = bind (t0, Returned tt)
          (fun _ => bind (batch w jd res count) (fun _ => exit 0)).
Proof. subst prepared run. unfold cli. now intros ->. Qed.

(** Every unit isolated: all rounds run and the status is 0. *)
Lemma cli_isolated t0 jd res :
  prepared = (t0, Returned (jd, res)) ->
  (forall i, (i < Z.to_nat count)%nat -> isolated w res i) ->
  run = ((t0 ++ flat_map (unit_trace w jd res count) (range count))%list,
         Exited 0).
Proof.
  intros Hp Hiso. rewrite (cli_prepare_returned _ _ _ Hp).
  unfold batch. rewrite BatchFacts.for_each_isolated.
  - simpl. now rewrite app_nil_r.
  - intros i Hi. apply Hiso. unfold range in Hi.
    apply in_seq in Hi. lia.
Qed.

(** Unit [i] is the first to raise a foreign exception: the rounds
    stop inside round [i]. *)
Lemma cli_foreign t0 jd res i e :
  prepared = (t0, Returned (jd, res)) ->
  (i < Z.to_nat count)%nat ->
  (forall j, (j < i)%nat -> isolated w res j) ->
  jail_create w i res = Some e -> Py.is_IocageException e = false ->
  run = ((t0 ++ flat_map (unit_trace w jd res count) (seq 0 i)
          ++ [NewJail i jd; Create i res])%list, Raised e).
Proof.
  intros Hp Hi Hiso Hc He. rewrite (cli_prepare_returned _ _ _ Hp).
  unfold batch, range.
  replace (Z.to_nat count) with (i + S (Z.to_nat count - S i))%nat by lia.
  rewrite seq_app. simpl seq.
  rewrite (BatchFacts.for_each_foreign w jd res count _ _ _ e);
    [reflexivity| |exact Hc|exact He].
  intros j Hj. apply Hiso. apply in_seq in Hj. lia.
Qed.

(** In every run the trace is that of the first phase followed by
    rounds that touch no source and hand the prepared data to every
    jail. *)
Lemma cli_trace :
  exists tb,
    run.1 = (prepared.1 ++ tb)%list
    /\ List.filter is_Fetch tb = []
    /\ List.filter is_NewResource tb = []
    /\ (forall i d, In (i, d) (constructed tb) ->
          exists res, prepared.2 = Returned (d, res)).
Proof.
  destruct prepared as [t0 [[jd res]| |]] eqn:Hp.
  - rewrite (cli_prepare_returned _ _ _ Hp). unfold batch.
    pose proof (BatchFacts.rounds_general w jd res count (range count))
      as (H1 & H2 & H3 & H4). simpl in *.
    destruct (for_each (range count) (create_unit w jd res count))
      as [tb rb]. simpl in *.
    exists tb.
    destruct rb; simpl; rewrite ?app_nil_r;
      (split; [reflexivity|]; split; [exact H1|]; split; [exact H2|]);
      intros i d Hd; exists res; now rewrite (H3 i d Hd).
  - rewrite (cli_prepare_exited _ _ Hp). exists []. simpl.
    rewrite app_nil_r. repeat split. intros ? ? [].
  - rewrite (cli_prepare_raised _ _ Hp). exists []. simpl.
    rewrite app_nil_r. repeat split. intros ? ? [].
Qed.

End with_request.
End RunFacts.

(** ** The batch *)

(** C2.  When the first phase has returned and the units raise nothing but
    the library's errors, every one of the [count] units is attempted, in
    order, and the outcomes are those of the units one by one: a unit whose
    [create] raised is reported as a failure and changes the outcome of no
    other unit.  The run ends on [exit] with the status of [errors]. *)
Theorem batch_isolation w release template count props pkglist basejail
    basejail_type empty name no_fetch force t0 jd res :
  create.prepare w release template props basejail basejail_type name no_fetch
  = (t0, Returned (jd, res)) ->
  (forall i, (i < Z.to_nat count)%nat -> isolated w res i) ->
  let run :=
    create.cli w release template count props pkglist basejail basejail_type
      empty name no_fetch force in
  attempted run.1 = range count
  /\ outcomes run.1 = map (unit_outcome w res) (range count)
  /\ constructed run.1 = map (fun i => (i, jd)) (range count)
  /\ run.2 = Exited 0.
Proof.
  intros Hp Hiso run. subst run.
  rewrite (RunFacts.cli_isolated _ _ _ _ _ _ _ _ _ _ _ _ _ _ _ Hp Hiso).
  pose proof (CliFacts.prepare_trace w release template props basejail
                basejail_type name no_fetch) as (Hsetup & _).
  rewrite Hp in Hsetup. simpl in Hsetup. simpl fst. simpl snd.
  unfold attempted, constructed, outcomes.
  rewrite !omap_app.
  fold (attempted t0) (constructed t0).
  rewrite BatchFacts.attempted_setup, BatchFacts.constructed_setup by exact Hsetup.
  fold (attempted (flat_map (unit_trace w jd res count) (range count))).
  fold (constructed (flat_map (unit_trace w jd res count) (range count))).
  rewrite BatchFacts.attempted_units, BatchFacts.constructed_units.
  rewrite BatchFacts.outcomes_setup by exact Hsetup.
  rewrite <- (app_nil_r (flat_map _ _)).
  rewrite BatchFacts.outcomes_units.
  - simpl. rewrite app_nil_r. repeat split.
  - intros i Hi. apply Hiso. apply in_seq in Hi. lia.
Qed.

(** Three units, the second of which fails with the library's error. *)
Lemma batch_isolation_witness :
  let run :=
    create.cli (sample_world true true (failing_at 1 Py.IocageException))
      (Some "11.1-RELEASE") None 3 [] None false None false None false false in
  attempted run.1 = [0; 1; 2]%nat
  /\ outcomes run.1 = [success 0; failure 1; success 2]
  /\ constructed run.1 = [(0%nat, ∅); (1%nat, ∅); (2%nat, ∅)]
  /\ run.2 = Exited 0.
Proof.
  apply (batch_isolation
           (sample_world true true (failing_at 1 Py.IocageException))
           (Some "11.1-RELEASE") None 3 [] None false None false None false
           false
           [NewResource (ReleaseGenerator "11.1-RELEASE");
            GetFetched (ReleaseGenerator "11.1-RELEASE")]
           ∅ (ReleaseGenerator "11.1-RELEASE")).
  - reflexivity.
  - intros i Hi e. unfold sample_world, failing_at. simpl.
    destruct (i =? 1)%nat; [|discriminate].
    now intros [= <-].
Defined.

(** C10.  When unit [i] is the first whose [create] raises an exception
    that is not an [IocageException], the exception leaves the loop: the
    run ends on it, the units after [i] are neither built nor attempted,
    and the outcomes are those of the units before [i] alone. *)
Theorem foreign_exception_propagates w release template count props pkglist
    basejail basejail_type empty name no_fetch force t0 jd res i e :
  create.prepare w release template props basejail basejail_type name no_fetch
  = (t0, Returned (jd, res)) ->
  (i < Z.to_nat count)%nat ->
  (forall j, (j < i)%nat -> isolated w res j) ->
  create.jail_create w i res = Some e ->
  Py.is_IocageException e = false ->
  let run :=
    create.cli w release template count props pkglist basejail basejail_type
      empty name no_fetch force in
  run.2 = Raised e
  /\ attempted run.1 = seq 0 (S i)
  /\ constructed run.1 = map (fun j => (j, jd)) (seq 0 (S i))
  /\ outcomes run.1 = map (unit_outcome w res) (seq 0 i).
Proof.
  intros Hp Hi Hiso Hc He run. subst run.
  rewrite (RunFacts.cli_foreign _ _ _ _ _ _ _ _ _ _ _ _ _ _ _ _ _
             Hp Hi Hiso Hc He).
  pose proof (CliFacts.prepare_trace w release template props basejail
                basejail_type name no_fetch) as (Hsetup & _).
  rewrite Hp in Hsetup. simpl in Hsetup. simpl fst. simpl snd.
  split; [reflexivity|].
  rewrite seq_S, !map_app. simpl.
  unfold attempted, constructed, outcomes.
  rewrite !omap_app.
  fold (attempted t0) (constructed t0).
  rewrite BatchFacts.attempted_setup, BatchFacts.constructed_setup by exact Hsetup.
  fold (attempted (flat_map (unit_trace w jd res count) (seq 0 i))).
  fold (constructed (flat_map (unit_trace w jd res count) (seq 0 i))).
  rewrite BatchFacts.attempted_units, BatchFacts.constructed_units.
  rewrite BatchFacts.outcomes_setup by exact Hsetup.
  rewrite BatchFacts.outcomes_units.
  - simpl. rewrite app_nil_r. repeat split.
  - intros j Hj. apply Hiso. apply in_seq in Hj. lia.
Qed.

(** Three units, the second of which raises an [OSError]. *)
Lemma foreign_exception_propagates_witness :
  let run :=
    create.cli (sample_world true true (failing_at 1 (Py.Foreign "OSError")))
      (Some "11.1-RELEASE") None 3 [] None false None false None false false in
  run.2 = Raised (Py.Foreign "OSError")
  /\ attempted run.1 = [0; 1]%nat
  /\ constructed run.1 = [(0%nat, ∅); (1%nat, ∅)]
  /\ outcomes run.1 = [success 0].
Proof.
  apply (foreign_exception_propagates
           (sample_world true true (failing_at 1 (Py.Foreign "OSError")))
           (Some "11.1-RELEASE") None 3 [] None false None false None false
           false
           [NewResource (ReleaseGenerator "11.1-RELEASE");
            GetFetched (ReleaseGenerator "11.1-RELEASE")]
           ∅ (ReleaseGenerator "11.1-RELEASE") 1%nat (Py.Foreign "OSError")).
  - reflexivity.
  - simpl. lia.
  - intros j Hj e. assert (j = 0%nat) as -> by lia. discriminate.
  - reflexivity.
  - reflexivity.
Defined.

(** C1.  A batch of one unit whose [create] raises the library's error:
    the unit is reported as failed, and the process still exits with
    status 0, because [errors] is [False] when it reaches [exit]. *)
Theorem exit_status_with_failed_unit :
  let run :=
    create.cli (sample_world true true (failing_at 0 Py.IocageException))
      (Some "11.1-RELEASE") None 1 [] None false None false None false false in
  outcomes run.1 = [failure 0]
  /\ run.2 = Exited 0
  /\ exit_status run.2 = 0.
Proof. repeat split. Qed.

(** ** The source *)

Section source.
Import create.
Variable w : World.
Variables (release template : option string) (count : Z)
  (props : list string) (pkglist : option string) (basejail : bool)
  (basejail_type : option string) (empty : bool) (name : option string)
  (no_fetch force : bool).

(** A release that is not fetched, available, and may be fetched is
    fetched in the first phase. *)
Lemma prepare_fetches r :
  selected_source w release template = ReleaseGenerator r ->
  state_of w (ReleaseGenerator r) = available_remote ->
  no_fetch = false ->
  fetches
    (prepare w release template props basejail basejail_type name
       no_fetch).1 = 1%nat.
Proof.
  unfold state_of. intros Hsel Hstate ->.
  destruct (fetched w (ReleaseGenerator r)) eqn:Hf; [discriminate|].
  destruct (available w (ReleaseGenerator r)) eqn:Ha; [|discriminate].
  unfold prepare, resolve_release, call.
  destruct release as [r'|], template as [t'|]; simpl in Hsel;
    try discriminate; injection Hsel as <-; simpl; rewrite Hf; simpl;
    rewrite Ha; simpl;
    destruct (fetch w _); simpl; try reflexivity;
    destruct (Py.truthy name), basejail, basejail_type; simpl;
    CliFacts.split_props props; reflexivity.
Qed.

(** A release that cannot be used ends the run in the first phase, on an
    error and status 1, with the fetch never called. *)
Lemma cli_release_unusable r :
  selected_source w release template = ReleaseGenerator r ->
  let source := ReleaseGenerator r in
  let refused (msg : string) :=
    ((default_notice w release template
      ++ [NewResource source; GetFetched source; GetAvailable source;
          Logger error msg])%list, @Exited unit 1) in
  let run :=
    cli w release template count props pkglist basejail basejail_type
      empty name no_fetch force in
  (state_of w source = missing ->
   run = refused ("The release '" ++ resource_name w source
                  ++ "' does not exist"))
  /\ (state_of w source = available_remote -> no_fetch = true ->
      run = refused ("The release '" ++ resource_name w source
                     ++ "' is available," ++ " but not downloaded yet")).
Proof.
  unfold state_of. intros Hsel. simpl.
  split.
  - intros Hstate.
    destruct (fetched w (ReleaseGenerator r)) eqn:Hf; [discriminate|].
    destruct (available w (ReleaseGenerator r)) eqn:Ha; [discriminate|].
    unfold cli, prepare, resolve_release, call.
    destruct release as [r'|], template as [t'|]; simpl in Hsel;
      try discriminate; injection Hsel as <-; simpl; rewrite Hf; simpl;
      rewrite Ha; reflexivity.
  - intros Hstate ->.
    destruct (fetched w (ReleaseGenerator r)) eqn:Hf; [discriminate|].
    destruct (available w (ReleaseGenerator r)) eqn:Ha; [|discriminate].
    unfold cli, prepare, resolve_release, call.
    destruct release as [r'|], template as [t'|]; simpl in Hsel;
      try discriminate; injection Hsel as <-; simpl; rewrite Hf; simpl;
      rewrite Ha; reflexivity.
Qed.

End source.

(** C5.  In every run the source is built once, and it is the selected
    one; the fetch is called at most once, whatever [count] is; and for a
    release that is not fetched but available, without [--no-fetch], it is
    called exactly once. *)
Theorem source_resolved_once w release template count props pkglist basejail
    basejail_type empty name no_fetch force :
  let run :=
    create.cli w release template count props pkglist basejail basejail_type
      empty name no_fetch force in
  List.filter is_NewResource run.1
  = [NewResource (selected_source w release template)]
  /\ resolutions run.1 = 1%nat
  /\ (fetches run.1 <= 1)%nat
  /\ (forall r,
        selected_source w release template = ReleaseGenerator r ->
        state_of w (ReleaseGenerator r) = available_remote ->
        no_fetch = false ->
        fetches run.1 = 1%nat).
Proof.
  intros run.
  destruct (RunFacts.cli_trace w release template count props pkglist basejail
              basejail_type empty name no_fetch force)
    as (tb & Hrun & Hf & Hr & _).
  pose proof (CliFacts.prepare_trace w release template props basejail
                basejail_type name no_fetch) as (_ & Hres & Hfetch & _).
  subst run. rewrite Hrun. unfold resolutions, fetches in *.
  rewrite !List.filter_app, Hf, Hr, !app_nil_r, Hres.
  split; [reflexivity|]. split; [reflexivity|]. split; [exact Hfetch|].
  intros r Hsel Hstate Hno.
  exact (prepare_fetches w release template props basejail basejail_type
           name no_fetch r Hsel Hstate Hno).
Qed.

(** Five units from a release that is available and not fetched yet. *)
Lemma source_resolved_once_witness :
  fetches
    (create.cli (sample_world false true (fun _ => None))
       (Some "11.1-RELEASE") None 5 [] None false None false None false
       false).1 = 1%nat.
Proof.
  apply (proj2 (proj2 (proj2
           (source_resolved_once (sample_world false true (fun _ => None))
              (Some "11.1-RELEASE") None 5 [] None false None false None
              false false))) "11.1-RELEASE"); reflexivity.
Defined.

(** C6.  A selected release that is neither fetched nor available ends the
    run on the error that it does not exist, with status 1; one that is
    available but not fetched, under [--no-fetch], ends the run on the
    error that it is not downloaded yet, with status 1.  In both runs the
    fetch is never called and no unit is built or attempted. *)
Theorem unusable_release_refused w release template count props pkglist
    basejail basejail_type empty name no_fetch force r :
  selected_source w release template = ReleaseGenerator r ->
  let source := ReleaseGenerator r in
  let refused (msg : string) :=
    ((default_notice w release template
      ++ [NewResource source; GetFetched source; GetAvailable source;
          Logger error msg])%list, @Exited unit 1) in
  let run :=
    create.cli w release template count props pkglist basejail basejail_type
      empty name no_fetch force in
  (state_of w source = missing ->
   run = refused ("The release '" ++ create.resource_name w source
                  ++ "' does not exist")
   /\ fetches run.1 = 0%nat /\ constructed run.1 = [] /\ attempted run.1 = [])
  /\ (state_of w source = available_remote -> no_fetch = true ->
      run = refused ("The release '" ++ create.resource_name w source
                     ++ "' is available," ++ " but not downloaded yet")
      /\ fetches run.1 = 0%nat /\ constructed run.1 = []
      /\ attempted run.1 = []).
Proof.
  intros Hsel source refused run.
  destruct (cli_release_unusable w release template count props pkglist
              basejail basejail_type empty name no_fetch force r Hsel)
    as [Hmissing Hremote].
  assert (forall msg, fetches (refused msg).1 = 0%nat
                      /\ constructed (refused msg).1 = []
                      /\ attempted (refused msg).1 = []) as Hobs.
  { intros msg. subst refused. unfold default_notice.
    destruct release, template; repeat split. }
  split.
  - intros Hstate. subst run. rewrite (Hmissing Hstate).
    split; [reflexivity|apply Hobs].
  - intros Hstate Hno. subst run. rewrite (Hremote Hstate Hno).
    split; [reflexivity|apply Hobs].
Qed.

(** A release that does not exist, and one that is not downloaded under
    [--no-fetch]. *)
Lemma unusable_release_refused_witness :
  create.cli (sample_world false false (fun _ => None))
    (Some "9.9-RELEASE") None 2 [] None false None false None false false
  = ([NewResource (ReleaseGenerator "9.9-RELEASE");
      GetFetched (ReleaseGenerator "9.9-RELEASE");
      GetAvailable (ReleaseGenerator "9.9-RELEASE");
      Logger error "The release '9.9-RELEASE' does not exist"], Exited 1)
  /\ create.cli (sample_world false true (fun _ => None))
       None None 2 [] None false None false None true false
     = ([Logger spam
           "No release selected (-r, --release). Selecting host release '11.1-RELEASE' as default.";
         NewResource (ReleaseGenerator "11.1-RELEASE");
         GetFetched (ReleaseGenerator "11.1-RELEASE");
         GetAvailable (ReleaseGenerator "11.1-RELEASE");
         Logger error
           "The release '11.1-RELEASE' is available, but not downloaded yet"],
        Exited 1).
Proof.
  split.
  - apply (proj1 (unusable_release_refused
                    (sample_world false false (fun _ => None))
                    (Some "9.9-RELEASE") None 2 [] None false None false None
                    false false "9.9-RELEASE" eq_refl)).
    reflexivity.
  - apply (proj2 (unusable_release_refused
                    (sample_world false true (fun _ => None))
                    None None 2 [] None false None false None
                    true false "11.1-RELEASE" eq_refl)); reflexivity.
Defined.

(** ** Override tokens and the explicit name *)

Section request_data.
Import create.
Variable w : World.
Variables (release template : option string) (count : Z)
  (props : list string) (pkglist : option string) (basejail : bool)
  (basejail_type : option string) (empty : bool) (name : option string)
  (no_fetch force : bool).

Let run :=
  cli w release template count props pkglist basejail basejail_type
    empty name no_fetch force.

(** Every jail that is built receives the base data with all the tokens
    applied. *)
Lemma constructed_data i d :
  In (i, d) (constructed run.1) ->
  for_fold props apply_prop (base_jail_data name basejail basejail_type)
  = ([], Returned d).
Proof.
  subst run.
  destruct (RunFacts.cli_trace w release template count props pkglist basejail
              basejail_type empty name no_fetch force)
    as (tb & Hrun & _ & _ & Hd).
  pose proof (CliFacts.prepare_trace w release template props basejail
                basejail_type name no_fetch) as (Hsetup & _).
  rewrite Hrun. unfold constructed. rewrite omap_app.
  fold (constructed tb).
  fold (constructed (prepare w release template props basejail
                       basejail_type name no_fetch).1).
  rewrite BatchFacts.constructed_setup by exact Hsetup.
  intros Hin. destruct (Hd i d Hin) as [res Hres].
  destruct (prepare w release template props basejail basejail_type name
              no_fetch) as [t0 r0] eqn:Hp.
  simpl in Hres. subst r0.
  now apply CliFacts.prepare_returned in Hp as [_ Hp].
Qed.

(** A token without ['='] ends the run with status 1 before any jail is
    built. *)
Lemma bad_token_aborts p :
  In p props -> ~ In "="%char (list_ascii_of_string p) ->
  exit_status run.2 = 1 /\ constructed run.1 = [] /\ attempted run.1 = [].
Proof.
  intros Hp Hbad. subst run.
  pose proof (CliFacts.prepare_bad_token w release template props basejail
                basejail_type name no_fetch p Hp Hbad) as Hnot.
  pose proof (CliFacts.prepare_trace w release template props basejail
                basejail_type name no_fetch) as (Hsetup & _ & _ & Hexit).
  destruct (prepare w release template props basejail basejail_type name
              no_fetch) as [t0 [x|n|e]] eqn:Hprep; simpl in *.
  - now destruct (Hnot x).
  - rewrite (RunFacts.cli_prepare_exited _ _ _ _ _ _ _ _ _ _ _ _ _ _ Hprep).
    simpl. rewrite (Hexit n eq_refl).
    split; [reflexivity|]. split.
    + now apply BatchFacts.constructed_setup.
    + now apply BatchFacts.attempted_setup.
  - rewrite (RunFacts.cli_prepare_raised _ _ _ _ _ _ _ _ _ _ _ _ _ _ Hprep).
    simpl. split; [reflexivity|]. split.
    + now apply BatchFacts.constructed_setup.
    + now apply BatchFacts.attempted_setup.
Qed.

End request_data.

(** C7.  A token [key=value] is split at its first ['='] and sets [key] to
    the text [value] in [jail_data] (so ["tag=web01"] sets [tag] to
    ["web01"]), and when it is the last token every jail that is built
    receives that value.  A token without ['='] is answered with the error
    [Invalid property] and status 1; when the tokens of a request contain
    one, the run ends with status 1 and no jail is built or attempted. *)
Theorem override_tokens :
  (forall k v jd,
     ~ In "="%char (list_ascii_of_string k) ->
     Py.str_split1 "=" (k ++ String "=" v) = [k; v]
     /\ create.apply_prop (k ++ String "=" v) jd
        = ([], Returned (<[k := VStr v]> jd)))
  /\ (forall jd,
        create.apply_prop "tag=web01" jd
        = ([], Returned (<["tag" := VStr "web01"]> jd)))
  /\ (forall w release template count props pkglist basejail basejail_type
        empty name no_fetch force k v i d,
        ~ In "="%char (list_ascii_of_string k) ->
        In (i, d)
          (constructed
             (create.cli w release template count
                (props ++ [(k ++ String "=" v)%string])%list pkglist basejail
                basejail_type empty name no_fetch force).1) ->
        d !! k = Some (VStr v))
  /\ (forall p jd,
        ~ In "="%char (list_ascii_of_string p) ->
        create.apply_prop p jd
        = ([Logger error ("Invalid property " ++ p)], Exited 1))
  /\ (forall w release template count props pkglist basejail basejail_type
        empty name no_fetch force p,
        In p props -> ~ In "="%char (list_ascii_of_string p) ->
        let run :=
          create.cli w release template count props pkglist basejail
            basejail_type empty name no_fetch force in
        exit_status run.2 = 1 /\ constructed run.1 = []
        /\ attempted run.1 = []).
Proof.
  split; [|split; [|split; [|split]]].
  - intros k v jd Hk. split.
    + now apply PropFacts.split1_sep.
    + now apply PropFacts.apply_prop_ok.
  - intros jd. reflexivity.
  - intros w release template count props pkglist basejail basejail_type
      empty name no_fetch force k v i d Hk Hin.
    apply constructed_data in Hin.
    exact (RunFacts.props_loop_last _ _ _ _ _ _ Hk Hin).
  - intros p jd Hp. now apply PropFacts.apply_prop_bad.
  - intros w release template count props pkglist basejail basejail_type
      empty name no_fetch force p Hp Hbad.
    exact (bad_token_aborts w release template count props pkglist basejail
             basejail_type empty name no_fetch force p Hp Hbad).
Qed.

(** The token ["tag=web01"] reaches both jails of a batch of two; the token
    ["tag"] aborts the batch. *)
Lemma override_tokens_witness :
  constructed
    (create.cli (sample_world true true (fun _ => None))
       (Some "11.1-RELEASE") None 2 ["tag=web01"] None false None false None
       false false).1
  = [(0%nat, {["tag" := VStr "web01"]}); (1%nat, {["tag" := VStr "web01"]})]
  /\ create.cli (sample_world true true (fun _ => None))
       (Some "11.1-RELEASE") None 2 ["tag=web01"; "tag"] None false None
       false None false false
     = ([NewResource (ReleaseGenerator "11.1-RELEASE");
         GetFetched (ReleaseGenerator "11.1-RELEASE");
         Logger error "Invalid property tag"], Exited 1)
  /\ exit_status
       (create.cli (sample_world true true (fun _ => None))
          (Some "11.1-RELEASE") None 2 ["tag=web01"; "tag"] None false None
          false None false false).2 = 1.
Proof.
  split; [reflexivity|]. split; [reflexivity|].
  apply (proj2 (proj2 (proj2 (proj2 override_tokens)))
           (sample_world true true (fun _ => None))
           (Some "11.1-RELEASE") None 2 ["tag=web01"; "tag"] None false None
           false None false false "tag").
  - simpl. tauto.
  - simpl. intros [H|[H|[H|[]]]]; discriminate.
Defined.

(** C3, as the code has it.  A request with both a release and a template
    is not refused: the release decides, the template is not read, and the
    run is the run of the same request without the template. *)
Theorem release_takes_precedence w r t count props pkglist basejail
    basejail_type empty name no_fetch force :
  selected_source w (Some r) (Some t) = ReleaseGenerator r
  /\ create.cli w (Some r) (Some t) count props pkglist basejail basejail_type
       empty name no_fetch force
     = create.cli w (Some r) None count props pkglist basejail basejail_type
         empty name no_fetch force.
Proof. split; reflexivity. Qed.

(** C3, as stated, fails: with a release and a template both given, the
    source is built from the release, the inventory is asked, a jail is
    built and created, and the status is 0. *)
Lemma both_selectors_not_refused :
  let run :=
    create.cli (sample_world true true (fun _ => None))
      (Some "11.1-RELEASE") (Some "base") 1 [] None false None false None
      false false in
  run
  = ([NewResource (ReleaseGenerator "11.1-RELEASE");
      GetFetched (ReleaseGenerator "11.1-RELEASE");
      NewJail 0 ∅;
      Create 0 (ReleaseGenerator "11.1-RELEASE");
      Logger log "jail0 successfully created from 11.1-RELEASE!"], Exited 0)
  /\ resolutions run.1 = 1%nat
  /\ queries run.1 = 1%nat
  /\ outcomes run.1 = [success 0]
  /\ exit_status run.2 = 0.
Proof. repeat split. Qed.


(** ** The JSON codec *)

Module JSONFacts.
Import ConfigJSON.

Lemma append_cons x (a b : string) : String x a ++ b = String x (a ++ b).
Proof. reflexivity. Qed.

Lemma append_nil (b : string) : "" ++ b = b.
Proof. reflexivity. Qed.

Lemma append_assoc (a b c : string) : (a ++ b) ++ c = a ++ (b ++ c).
Proof.
  induction a as [|x a IH]; [reflexivity|].
  now rewrite !append_cons, IH.
Qed.

Lemma length_append (a b : string) :
  String.length (a ++ b) = (String.length a + String.length b)%nat.
Proof.
  induction a as [|x a IH]; [reflexivity|].
  rewrite append_cons. simpl. now rewrite IH.
Qed.

(** *** Texts *)

Lemma scan_escape_char c tail :
  scan_string (escape_char c ++ tail) = push c (scan_string tail).
Proof.
  destruct c as [[] [] [] [] [] [] [] []]; reflexivity.
Qed.

Lemma scan_string_escape s rest :
  scan_string (escape s ++ String dquote rest) = Some (s, rest).
Proof.
  induction s as [|c s IH]; simpl escape.
  - reflexivity.
  - rewrite append_assoc, scan_escape_char, IH. reflexivity.
Qed.

Lemma scan_string_quote s rest :
  scan_string (escape s ++ String dquote "" ++ rest) = Some (s, rest).
Proof. apply scan_string_escape. Qed.

(** *** Integers *)

Lemma scan_uint_digits d rest :
  delimiter rest ->
  scan_uint (NilEmpty.string_of_uint d ++ rest) = (d, rest).
Proof.
  intros (r & [-> | ->]);
    induction d; simpl NilEmpty.string_of_uint;
    rewrite ?append_cons, ?append_nil; simpl; rewrite ?IHd; reflexivity.
Qed.

Lemma to_uint_head p d : Pos.to_uint p <> D0 d.
Proof.
  intros H.
  pose proof (DecimalPos.Unsigned.to_of (Pos.to_uint p)) as E.
  rewrite DecimalPos.Unsigned.of_to in E. simpl in E.
  rewrite H in E. unfold unorm in E.
  destruct (nzhead (D0 d)) eqn:Hn; try discriminate E.
  - apply (DecimalPos.Unsigned.to_uint_nonzero p). rewrite H. exact E.
  - exact (DecimalFacts.nzhead_nonzero (D0 d) _ Hn).
Qed.

Lemma scan_int_str_of_int n rest :
  delimiter rest ->
  scan_int (Py.str_of_int n ++ rest) = Some (n, rest).
Proof.
  intros Hd. rewrite <- (DecimalZ.of_to n) at 2.
  unfold Py.str_of_int, scan_int.
  destruct n as [|p|p]; cbn [Z.to_int NilZero.string_of_int].
  - destruct Hd as (r & [-> | ->]); reflexivity.
  - unfold NilZero.string_of_uint.
    pose proof (DecimalPos.Unsigned.to_uint_nonnil p) as Hnil.
    pose proof (to_uint_head p) as Hhead.
    destruct (Pos.to_uint p) as [|d|d|d|d|d|d|d|d|d|d] eqn:E;
      try congruence; try (now destruct (Hhead d));
      rewrite <- E;
      (replace (match NilEmpty.string_of_uint (Pos.to_uint p) ++ rest with
                | String "-"%char s' => (true, s')
                | _ => (false, NilEmpty.string_of_uint (Pos.to_uint p) ++ rest)
                end)
         with (false, NilEmpty.string_of_uint (Pos.to_uint p) ++ rest)
         by (rewrite E; reflexivity));
      rewrite scan_uint_digits by exact Hd; rewrite E;
      destruct Hd as (r & [-> | ->]); reflexivity.
  - unfold NilZero.string_of_uint.
    pose proof (DecimalPos.Unsigned.to_uint_nonnil p) as Hnil.
    pose proof (to_uint_head p) as Hhead.
    rewrite append_cons.
    destruct (Pos.to_uint p) as [|d|d|d|d|d|d|d|d|d|d] eqn:E;
      try congruence; try (now destruct (Hhead d));
      rewrite <- E; rewrite scan_uint_digits by exact Hd; rewrite E;
      destruct Hd as (r & [-> | ->]); reflexivity.
Qed.

(** *** Values and members *)

Lemma str_of_int_head n :
  exists c t, Py.str_of_int n = String c t
              /\ (Py.is_digit c = true \/ c = "-"%char).
Proof.
  unfold Py.str_of_int.
  destruct n as [|p|p]; cbn [Z.to_int NilZero.string_of_int].
  - exists "0"%char, "". split; [reflexivity|now left].
  - unfold NilZero.string_of_uint.
    pose proof (DecimalPos.Unsigned.to_uint_nonnil p) as Hnil.
    destruct (Pos.to_uint p); try congruence; simpl; eauto.
  - eexists _, _. split; [reflexivity|now right].
Qed.

Lemma scan_value_encode v rest :
  delimiter rest ->
  scan_value (encode_value v ++ rest) = Some (v, rest).
Proof.
  intros Hd. destruct v as [s|[]|n|]; simpl encode_value;
    try reflexivity.
  - unfold quote. rewrite append_cons, append_assoc.
    unfold scan_value. rewrite Ascii.eqb_refl.
    now rewrite scan_string_quote.
  - pose proof (scan_int_str_of_int n rest Hd) as Hint.
    destruct (str_of_int_head n) as (c & t & E & Hc).
    rewrite E in *. rewrite append_cons in *.
    unfold scan_value. rewrite Hint.
    destruct Hc as [Hc| ->]; [|reflexivity].
    destruct c as [[] [] [] [] [] [] [] []]; try discriminate Hc;
      reflexivity.
Qed.

Lemma encode_value_head v rest :
  exists c t, encode_value v ++ rest = String c t /\ is_ws c = false.
Proof.
  destruct v as [s|[]|n|]; simpl encode_value;
    try (eexists _, _; split; reflexivity).
  destruct (str_of_int_head n) as (c & t & -> & Hc).
  exists c, (t ++ rest). split; [reflexivity|].
  destruct Hc as [Hc| ->]; [|reflexivity].
  destruct c as [[] [] [] [] [] [] [] []]; try discriminate Hc; reflexivity.
Qed.

Lemma encode_member_text k v rest :
  encode_member (k, v) ++ rest
  = String dquote
      (escape k ++ String dquote ""
       ++ String ":" (String " " (encode_value v ++ rest))).
Proof.
  unfold encode_member, quote. simpl fst. simpl snd.
  repeat first [rewrite append_assoc | rewrite append_cons
               | rewrite append_nil].
  reflexivity.
Qed.

Lemma skip_ws_head c t : is_ws c = false -> skip_ws (String c t) = String c t.
Proof. intros H. simpl. now rewrite H. Qed.

Lemma skip_ws_space t : skip_ws (String " " t) = skip_ws t.
Proof. reflexivity. Qed.

(** One member, followed by a comma or by the closing brace. *)
Lemma scan_member fuel k v rest acc :
  scan_members (S fuel) (encode_member (k, v) ++ String "," (String " " rest))
    acc
  = scan_members fuel (skip_ws rest) (<[k := v]> acc)
  /\ scan_members (S fuel) (encode_member (k, v) ++ String "}" rest) acc
     = Some (<[k := v]> acc, rest).
Proof.
  split; rewrite encode_member_text; cbn [scan_members];
    rewrite Ascii.eqb_refl, scan_string_quote;
    rewrite (skip_ws_head ":") by reflexivity; cbv beta iota;
    rewrite skip_ws_space;
    match goal with
    | |- context [encode_value v ++ ?r] =>
        destruct (encode_value_head v r) as (c & t & E & Hc);
        rewrite E, (skip_ws_head c t Hc), <- E, scan_value_encode
          by (eexists; eauto)
    end;
    rewrite skip_ws_head by reflexivity; reflexivity.
Qed.

Lemma encode_members_cons kv kv' l :
  encode_members (kv :: kv' :: l)
  = encode_member kv ++ ", " ++ encode_members (kv' :: l).
Proof. reflexivity. Qed.

Lemma comma_space t : ", " ++ t = String "," (String " " t).
Proof. reflexivity. Qed.

Lemma encode_members_head kv l rest :
  skip_ws (encode_members (kv :: l) ++ rest)
  = encode_members (kv :: l) ++ rest.
Proof.
  assert (exists t, encode_members (kv :: l) ++ rest = String dquote t)
    as [t ->]; [|reflexivity].
  destruct kv as [k v]. destruct l;
    [cbn [encode_members]|rewrite encode_members_cons];
    rewrite ?append_assoc, encode_member_text; eauto.
Qed.

Lemma scan_members_encode l fuel acc rest :
  l <> [] -> (length l <= fuel)%nat ->
  scan_members fuel (encode_members l ++ String "}" rest) acc
  = Some (fold_left put l acc, rest).
Proof.
  revert fuel acc. induction l as [|[k v] l IH]; intros fuel acc Hl Hfuel;
    [congruence|].
  destruct fuel as [|fuel]; [simpl in Hfuel; lia|].
  destruct l as [|kv' l].
  - cbn [encode_members]. now rewrite (proj2 (scan_member fuel k v rest acc)).
  - rewrite encode_members_cons, !append_assoc, comma_space.
    rewrite (proj1 (scan_member fuel k v _ acc)).
    rewrite encode_members_head.
    rewrite IH; [reflexivity|congruence|simpl in *; lia].
Qed.

Lemma encode_members_length l :
  (length l <= String.length (encode_members l))%nat.
Proof.
  induction l as [|[k v] l IH]; [simpl; lia|].
  assert (1 <= String.length (encode_member (k, v)))%nat as H1.
  { unfold encode_member, quote. rewrite append_cons.
    cbn [String.length]. lia. }
  destruct l as [|kv' l].
  - exact H1.
  - rewrite encode_members_cons, !length_append.
    change (length ((k, v) :: kv' :: l)) with (S (length (kv' :: l))).
    lia.
Qed.

(** *** Stores *)

Lemma fold_put_list_to_map (l : list (string * value)) acc :
  NoDup l.*1 -> fold_left put l acc = list_to_map l ∪ acc.
Proof.
  revert acc. induction l as [|[k v] l IH]; intros acc Hnd; simpl.
  - now rewrite (left_id_L ∅ (∪)).
  - apply NoDup_cons in Hnd as [Hk Hnd].
    rewrite IH by exact Hnd. unfold put. simpl.
    rewrite <- insert_union_r, insert_union_l; [reflexivity|].
    now apply not_elem_of_list_to_map_1.
Qed.

Lemma json_load_members t :
  json_load (String "{" (String dquote t))
  = match scan_members (String.length (String "{" (String dquote t)))
            (String dquote t) ∅ with
    | Some (m, r) => if all_ws r then Some m else None
    | None => None
    end.
Proof. reflexivity. Qed.

Lemma json_load_to_json (data : gmap string value) :
  json_load (to_json data) = Some data.
Proof.
  unfold to_json. rewrite append_cons, append_nil.
  destruct (map_to_list data) as [|kv l] eqn:E.
  - apply map_to_list_empty_iff in E as ->. reflexivity.
  - assert (exists t, encode_members (kv :: l) ++ "}" = String dquote t)
      as [t Ht].
    { destruct kv as [k v]. destruct l;
        [cbn [encode_members]|rewrite encode_members_cons];
        rewrite ?append_assoc, encode_member_text; eauto. }
    rewrite Ht, json_load_members, <- Ht.
    rewrite scan_members_encode.
    + simpl all_ws. cbv iota.
      rewrite fold_put_list_to_map, <- E.
      * now rewrite list_to_map_to_list, (right_id_L ∅ (∪)).
      * rewrite <- E. apply NoDup_fst_map_to_list.
    + congruence.
    + pose proof (encode_members_length (kv :: l)).
      cbn [String.length]. rewrite length_append. lia.
Qed.

End JSONFacts.

(** C4.  For the JSON codec, reading what was written gives the store back:
    [map_input (map_output s)] is [s], for every store of texts, booleans,
    integers and [None] under text keys. *)
Theorem json_round_trip (s : gmap string value) :
  ConfigJSON.map_input (ConfigJSON.map_output s) = Some s.
Proof. apply JSONFacts.json_load_to_json. Qed.

(** * Further properties of the [create] command *)

(** ** The rounds, whatever the units raise *)

Module RoundFacts.
Import create.

Section with_world.
Variable w : World.
Variable jd : gmap string value.
Variable res : resource.
Variable count : Z.

Lemma unit_trace_round i :
  forallb round_event (unit_trace w jd res count i) = true
  /\ List.filter is_query (unit_trace w jd res count i) = [].
Proof.
  unfold unit_trace.
  destruct (jail_create w i res) as [e|];
    [destruct (Py.is_IocageException e)|]; split; reflexivity.
Qed.

(** The rounds run over an initial segment of their units, build and
    attempt exactly those, log nothing but the reports of the units, and
    return only when no unit raised a foreign exception. *)
Lemma rounds_segment n a :
  let run := for_each (seq a n) (create_unit w jd res count) in
  exists k,
    (k <= n)%nat
    /\ attempted run.1 = seq a k
    /\ constructed run.1 = map (fun i => (i, jd)) (seq a k)
    /\ forallb round_event run.1 = true
    /\ List.filter is_query run.1 = []
    /\ (run.2 = Returned tt ->
        k = n /\ forall i, In i (seq a n) -> isolated w res i).
Proof.
  revert a. induction n as [|n IH]; intros a; cbv zeta.
  - exists 0%nat. repeat split; try reflexivity. intros i [].
  - cbn [seq for_each]. rewrite BatchFacts.create_unit_eq.
    destruct (IH (S a)) as (k & Hk & Hatt & Hcon & Hev & Hq & Hret).
    destruct (for_each (seq (S a) n) (create_unit w jd res count))
      as [tl rl]. cbn [fst snd] in Hatt, Hcon, Hev, Hq, Hret.
    destruct (unit_trace_round a) as [Hua Huq].
    assert (attempted (unit_trace w jd res count a) = [a]) as Hat1.
    { unfold unit_trace, attempted.
      destruct (jail_create w a res) as [e|];
        [destruct (Py.is_IocageException e)|]; reflexivity. }
    assert (constructed (unit_trace w jd res count a) = [(a, jd)]) as Hco1.
    { unfold unit_trace, constructed.
      destruct (jail_create w a res) as [e|];
        [destruct (Py.is_IocageException e)|]; reflexivity. }
    destruct (jail_create w a res) as [e|] eqn:Hc;
      [destruct (Py.is_IocageException e) eqn:He|]; cbn [bind fst snd].
    + exists (S k). unfold attempted, constructed in *.
      rewrite !omap_app, Hat1, Hco1, Hatt, Hcon.
      rewrite forallb_app, Hua, Hev, List.filter_app, Huq, Hq.
      split; [lia|]. repeat split; try reflexivity.
      * f_equal. now apply Hret.
      * intros i [<-|Hi]; [|now apply Hret].
        intros e' He'. rewrite Hc in He'. now injection He' as <-.
    + exists 1%nat. rewrite Hat1, Hco1, Hua, Huq.
      split; [lia|]. repeat split; try reflexivity; discriminate.
    + exists (S k). unfold attempted, constructed in *.
      rewrite !omap_app, Hat1, Hco1, Hatt, Hcon.
      rewrite forallb_app, Hua, Hev, List.filter_app, Huq, Hq.
      split; [lia|]. repeat split; try reflexivity.
      * f_equal. now apply Hret.
      * intros i [<-|Hi]; [|now apply Hret].
        intros e' He'. rewrite Hc in He'. discriminate.
Qed.

End with_world.

Section with_request.
Variable w : World.
Variables (release template : option string) (count : Z)
  (props : list string) (pkglist : option string) (basejail : bool)
  (basejail_type : option string) (empty : bool) (name : option string)
  (no_fetch force : bool).

Let prepared :=
  prepare w release template props basejail basejail_type name no_fetch.
Let run :=
  cli w release template count props pkglist basejail basejail_type
    empty name no_fetch force.

(** How a run ends: in the first phase, on [exit(1)] or on an exception;
    or after it, with the rounds returned and [exit(0)], or on the
    exception of a round. *)
Lemma cli_cases :
  (exists t0, prepared = (t0, Exited 1) /\ run = (t0, Exited 1))
  \/ (exists t0 e, prepared = (t0, Raised e) /\ run = (t0, Raised e))
  \/ (exists t0 jd res tb,
        prepared = (t0, Returned (jd, res))
        /\ ((batch w jd res count = (tb, Returned tt)
             /\ run = ((t0 ++ tb)%list, Exited 0))
            \/ exists e, batch w jd res count = (tb, Raised e)
                         /\ run = ((t0 ++ tb)%list, Raised e))).
Proof.
  pose proof (CliFacts.prepare_trace w release template props basejail
                basejail_type name no_fetch) as (_ & _ & _ & Hexit).
  fold prepared in Hexit.
  destruct prepared as [t0 [[jd res]|n|e]] eqn:Hp.
  - right. right. exists t0, jd, res.
    pose proof (RunFacts.cli_prepare_returned w release template count props
                  pkglist basejail basejail_type empty name no_fetch force
                  t0 jd res Hp) as Hrun.
    fold run in Hrun.
    pose proof (BatchFacts.rounds_general w jd res count (range count))
      as (_ & _ & _ & Hne).
    unfold batch in *.
    destruct (for_each (range count) (create_unit w jd res count))
      as [tb [[]|n|e]]; simpl in *.
    + exists tb. split; [reflexivity|]. left. split; [reflexivity|].
      now rewrite Hrun, app_nil_r.
    + now destruct (Hne n).
    + exists tb. split; [reflexivity|]. right. exists e.
      split; [reflexivity|exact Hrun].
  - left. exists t0. rewrite (Hexit n eq_refl) in *.
    split; [reflexivity|].
    exact (RunFacts.cli_prepare_exited w release template count props
             pkglist basejail basejail_type empty name no_fetch force
             t0 1 Hp).
  - right. left. exists t0, e. split; [reflexivity|].
    exact (RunFacts.cli_prepare_raised w release template count props
             pkglist basejail basejail_type empty name no_fetch force
             t0 e Hp).
Qed.

Lemma prepared_setup : forallb setup_event prepared.1 = true.
Proof.
  exact (proj1 (CliFacts.prepare_trace w release template props basejail
                  basejail_type name no_fetch)).
Qed.

End with_request.
End RoundFacts.

(** ** Runs as a whole *)

Module MoreFacts.
Import create.

Lemma bind_cons {A B} e t (r : result A) (k : A -> proc B) :
  bind (e :: t, r) k = (e :: (bind (t, r) k).1, (bind (t, r) k).2).
Proof.
  destruct r as [a| |]; simpl; [destruct (k a)|..]; reflexivity.
Qed.

Lemma bind_emit_ret {A B} e (a : A) (k : A -> proc B) :
  bind (bind (emit e) (fun _ => ret a)) k
  = (e :: (bind (ret a) k).1, (bind (ret a) k).2).
Proof. unfold emit, ret, bind. simpl. destruct (k a); reflexivity. Qed.

Section with_request.
Variable w : World.
Variables (release template : option string) (count : Z)
  (props : list string) (pkglist : option string) (basejail : bool)
  (basejail_type : option string) (empty : bool) (name : option string)
  (no_fetch force : bool).

Let prepared :=
  prepare w release template props basejail basejail_type name no_fetch.
Let run :=
  cli w release template count props pkglist basejail basejail_type
    empty name no_fetch force.

(** The trace of a run is that of the first phase, then events of the
    rounds only. *)
Lemma run_split :
  exists tb,
    run.1 = (prepared.1 ++ tb)%list
    /\ List.filter is_Fetch tb = []
    /\ List.filter is_NewResource tb = []
    /\ List.filter is_query tb = []
    /\ forallb round_event tb = true.
Proof.
  assert (forall jd res tb r,
            batch w jd res count = (tb, r) ->
            List.filter is_Fetch tb = []
            /\ List.filter is_NewResource tb = []
            /\ List.filter is_query tb = []
            /\ forallb round_event tb = true) as Hb.
  { intros jd res tb r Hbatch. unfold batch, range in Hbatch.
    pose proof (BatchFacts.rounds_general w jd res count
                  (seq 0 (Z.to_nat count))) as (H1 & H2 & _).
    destruct (RoundFacts.rounds_segment w jd res count (Z.to_nat count) 0)
      as (k & _ & _ & _ & H3 & H4 & _).
    rewrite Hbatch in *. simpl in *. auto. }
  destruct (RoundFacts.cli_cases w release template count props pkglist
              basejail basejail_type empty name no_fetch force)
    as [(t0 & Hp & Hr)|[(t0 & e & Hp & Hr)
       |(t0 & jd & res & tb & Hp & [[Hbt Hr]|(e & Hbt & Hr)])]];
    fold prepared in Hp; fold run in Hr; rewrite Hp, Hr; simpl.
  - exists []. rewrite app_nil_r. repeat split.
  - exists []. rewrite app_nil_r. repeat split.
  - exists tb. split; [reflexivity|]. exact (Hb _ _ _ _ Hbt).
  - exists tb. split; [reflexivity|]. exact (Hb _ _ _ _ Hbt).
Qed.

(** What the observers read when the first phase returned and every unit
    is isolated. *)
Lemma observed_isolated t0 jd res l :
  forallb setup_event t0 = true ->
  (forall i, In i l -> isolated w res i) ->
  let t := (t0 ++ flat_map (unit_trace w jd res count) l)%list in
  attempted t = l
  /\ outcomes t = map (unit_outcome w res) l
  /\ constructed t = map (fun i => (i, jd)) l.
Proof.
  intros Hsetup Hiso t. subst t.
  unfold attempted, constructed, outcomes. rewrite !omap_app.
  fold (attempted t0) (constructed t0).
  rewrite BatchFacts.attempted_setup, BatchFacts.constructed_setup
    by exact Hsetup.
  fold (attempted (flat_map (unit_trace w jd res count) l)).
  fold (constructed (flat_map (unit_trace w jd res count) l)).
  rewrite BatchFacts.attempted_units, BatchFacts.constructed_units.
  rewrite BatchFacts.outcomes_setup by exact Hsetup.
  rewrite <- (app_nil_r (flat_map _ _)).
  rewrite BatchFacts.outcomes_units by exact Hiso.
  simpl. rewrite app_nil_r. repeat split.
Qed.

(** A run that ends in the first phase has built and attempted nothing. *)
Lemma nothing_built t0 (r : result unit) :
  prepared.1 = t0 -> run = (t0, r) ->
  constructed run.1 = [] /\ attempted run.1 = [] /\ outcomes run.1 = [].
Proof.
  intros <- ->. simpl.
  pose proof (RoundFacts.prepared_setup w release template props basejail
                basejail_type name no_fetch) as Hs. fold prepared in Hs.
  split; [now apply BatchFacts.constructed_setup|].
  split; [now apply BatchFacts.attempted_setup|].
  unfold outcomes. rewrite <- (app_nil_r prepared.1).
  now rewrite BatchFacts.outcomes_setup.
Qed.

End with_request.

(** The basejail type without the basejail flag keeps the first phase
    from returning. *)
Lemma prepare_guard w release template props bt name no_fetch x :
  (prepare w release template props false (Some bt) name no_fetch).2
  <> Returned x.
Proof.
  unfold prepare, resolve_release, call.
  destruct release as [r|], template as [t|], (Py.truthy name), no_fetch;
    simpl;
    repeat match goal with
      | |- context [fetched w ?r] => destruct (fetched w r) eqn:?; simpl
      | |- context [available w ?r] => destruct (available w r) eqn:?; simpl
      | |- context [fetch w ?r] => destruct (fetch w r) eqn:?; simpl
      end; discriminate.
Qed.

(** The first phase with tokens is the first phase without them, followed
    by the loop over the tokens. *)
Lemma prepare_then_tokens w release template props basejail basejail_type
    name no_fetch :
  prepare w release template props basejail basejail_type name no_fetch
  = bind (prepare w release template [] basejail basejail_type name no_fetch)
      (fun p => bind (for_fold props apply_prop p.1)
                  (fun jd => ret (jd, p.2))).
Proof.
  CliFacts.split_inputs w release template name basejail basejail_type
    no_fetch;
    try reflexivity;
    match goal with
    | |- context [for_fold props apply_prop ?j] =>
        destruct (for_fold props apply_prop j) as [tp [jd'| |]]
    end; simpl; rewrite ?app_nil_r; reflexivity.
Qed.

(** Before a first token without ['='], the tokens are applied silently;
    that token is the one reported, and no later token is read. *)
Lemma tokens_first_bad good bad rest jd :
  Forall (fun p => In "="%char (list_ascii_of_string p)) good ->
  ~ In "="%char (list_ascii_of_string bad) ->
  for_fold (good ++ bad :: rest)%list apply_prop jd
  = ([Logger error ("Invalid property " ++ bad)], Exited 1).
Proof.
  intros Hgood Hbad. rewrite RunFacts.for_fold_app.
  destruct (PropFacts.props_loop_cases good jd)
    as [[_ (jd' & ->)]|(q & Hq & Hnq & _)].
  - simpl. now rewrite PropFacts.apply_prop_bad.
  - rewrite Forall_forall in Hgood. destruct Hnq. apply Hgood.
    now apply list_elem_of_In.
Qed.

Lemma append_inj_r (a b r : string) : a ++ r = b ++ r -> a = b.
Proof.
  revert b. induction a as [|x a IH]; intros [|y b] H.
  - reflexivity.
  - apply (f_equal String.length) in H.
    rewrite ?JSONFacts.append_nil, ?JSONFacts.append_cons in H.
    cbn [String.length] in H. rewrite JSONFacts.length_append in H. lia.
  - apply (f_equal String.length) in H.
    rewrite ?JSONFacts.append_nil, ?JSONFacts.append_cons in H.
    cbn [String.length] in H. rewrite JSONFacts.length_append in H. lia.
  - rewrite !JSONFacts.append_cons in H. injection H as -> H.
    f_equal. now apply IH.
Qed.

Lemma str_of_int_inj n m : Py.str_of_int n = Py.str_of_int m -> n = m.
Proof.
  intros H. pose proof (PyFacts.int_of_str_str_of_int n) as Hn.
  rewrite H, PyFacts.int_of_str_str_of_int in Hn. congruence.
Qed.

Lemma only_commas_removed s :
  (forall c, In c (list_ascii_of_string s) -> c = ","%char) ->
  Py.str_replace "," "" s = "".
Proof.
  induction s as [|a s IH]; simpl; [reflexivity|].
  intros H. rewrite (H a (or_introl eq_refl)). simpl.
  apply IH. intros c Hc. apply H. now right.
Qed.

Lemma base_jail_data_options name basejail basejail_type :
  (basejail = true ->
   base_jail_data name basejail basejail_type !! "basejail"
   = Some (VBool true))
  /\ (forall bt, basejail_type = Some bt ->
        base_jail_data name basejail basejail_type !! "basejail_type"
        = Some (VStr bt))
  /\ (Py.truthy name = false ->
      base_jail_data name basejail basejail_type !! "name" = None).
Proof.
  unfold base_jail_data.
  split; [|split].
  - intros ->. destruct (Py.truthy name), basejail_type; by simplify_map_eq.
  - intros bt ->. destruct (Py.truthy name), basejail; by simplify_map_eq.
  - intros ->. destruct basejail, basejail_type; by simplify_map_eq.
Qed.

End MoreFacts.

(** ** The source of a request *)

(** X1.  A request with neither a release nor a template is the request
    for the release the host runs, after one note at level [spam]: the two
    runs make the same calls and end the same way. *)
Theorem default_source_is_host_release w count props pkglist basejail
    basejail_type empty name no_fetch force :
  let explicit :=
    create.cli w (Some (create.host_release_version w)) None count props
      pkglist basejail basejail_type empty name no_fetch force in
  create.cli w None None count props pkglist basejail basejail_type empty
    name no_fetch force
  = (Logger spam
       ("No release selected (-r, --release)."
        ++ " Selecting host release '"
        ++ create.host_release_version w ++ "' as default.")
     :: explicit.1, explicit.2).
Proof.
  intros explicit. subst explicit. unfold create.cli.
  assert (create.prepare w None None props basejail basejail_type name
            no_fetch
          = (Logger spam
               ("No release selected (-r, --release)."
                ++ " Selecting host release '"
                ++ create.host_release_version w ++ "' as default.")
             :: (create.prepare w (Some (create.host_release_version w)) None
                   props basejail basejail_type name no_fetch).1,
             (create.prepare w (Some (create.host_release_version w)) None
                props basejail basejail_type name no_fetch).2)) as ->.
  { unfold create.prepare. cbv beta iota.
    exact (MoreFacts.bind_emit_ret _ _ _). }
  destruct (create.prepare w (Some (create.host_release_version w)) None
              props basejail basejail_type name no_fetch) as [t r].
  cbn [fst snd]. apply MoreFacts.bind_cons.
Qed.

(** X2.  A request with a template and no release builds its source from
    the template and never asks the inventory nor calls the fetch. *)
Theorem template_needs_no_inventory w t count props pkglist basejail
    basejail_type empty name no_fetch force :
  let run :=
    create.cli w None (Some t) count props pkglist basejail basejail_type
      empty name no_fetch force in
  List.filter is_NewResource run.1 = [NewResource (JailGenerator t)]
  /\ queries run.1 = 0%nat
  /\ fetches run.1 = 0%nat.
Proof.
  intros run.
  destruct (MoreFacts.run_split w None (Some t) count props pkglist basejail
              basejail_type empty name no_fetch force)
    as (tb & Hrun & Hf & Hr & Hq & _).
  fold run in Hrun. rewrite Hrun. unfold queries, fetches.
  rewrite !List.filter_app, Hf, Hr, Hq, !app_nil_r.
  unfold create.prepare.
  destruct (Py.truthy name), basejail, basejail_type; simpl;
    CliFacts.split_props props; repeat split.
Qed.

(** X12.  When the fetch of a release raises, the exception ends the run
    right after the fetch call: the notes that announce the fetch are the
    last messages (the second one is logged with its placeholder as
    written), and nothing else is checked or built. *)
Theorem fetch_exception_ends_run w release template count props pkglist
    basejail basejail_type empty name force r e :
  selected_source w release template = ReleaseGenerator r ->
  state_of w (ReleaseGenerator r) = available_remote ->
  create.fetch w (ReleaseGenerator r) = Some e ->
  let source := ReleaseGenerator r in
  create.cli w release template count props pkglist basejail basejail_type
    empty name false force
  = ((default_notice w release template
      ++ [NewResource source; GetFetched source; GetAvailable source;
          Logger spam
            ("The release '" ++ create.resource_name w source
             ++ "' is available," ++ " but not downloaded yet");
          Logger log "Automatically fetching release '{resource.name}'";
          Fetch source])%list, Raised e).
Proof.
  unfold state_of. intros Hsel Hstate Hfetch.
  destruct (create.fetched w (ReleaseGenerator r)) eqn:Hf; [discriminate|].
  destruct (create.available w (ReleaseGenerator r)) eqn:Ha; [|discriminate].
  unfold create.cli, create.prepare, create.resolve_release, create.call.
  destruct release as [r'|], template as [t'|]; simpl in Hsel;
    try discriminate; injection Hsel as <-; simpl; rewrite Hf; simpl;
    rewrite Ha; simpl; rewrite Hfetch; reflexivity.
Qed.

Lemma fetch_exception_ends_run_witness :
  create.cli (offline_world (Py.Foreign "OSError")) (Some "12.0-RELEASE")
    None 2 ["tag"] None false (Some "zfs") false None false false
  = ([NewResource (ReleaseGenerator "12.0-RELEASE");
      GetFetched (ReleaseGenerator "12.0-RELEASE");
      GetAvailable (ReleaseGenerator "12.0-RELEASE");
      Logger spam
        "The release '12.0-RELEASE' is available, but not downloaded yet";
      Logger log "Automatically fetching release '{resource.name}'";
      Fetch (ReleaseGenerator "12.0-RELEASE")],
     Raised (Py.Foreign "OSError")).
Proof.
  apply (fetch_exception_ends_run (offline_world (Py.Foreign "OSError"))
           (Some "12.0-RELEASE") None 2 ["tag"] None false (Some "zfs")
           false None false "12.0-RELEASE" (Py.Foreign "OSError"));
    reflexivity.
Defined.

(** X13.  For a source that needs no fetch, a template or a release
    already fetched, [--no-fetch] changes nothing in the run. *)
Theorem no_fetch_irrelevant_when_ready w release template count props
    pkglist basejail basejail_type empty name no_fetch no_fetch' force :
  source_ready w (selected_source w release template) = true ->
  create.cli w release template count props pkglist basejail basejail_type
    empty name no_fetch force
  = create.cli w release template count props pkglist basejail basejail_type
      empty name no_fetch' force.
Proof.
  intros Hready.
  unfold create.cli, create.prepare, create.resolve_release.
  destruct release as [r|], template as [t|]; simpl in *;
    rewrite ?Hready; reflexivity.
Qed.

Lemma no_fetch_irrelevant_when_ready_witness :
  create.cli (sample_world true false (fun _ => None)) None None 1 [] None
    false None false None true false
  = create.cli (sample_world true false (fun _ => None)) None None 1 [] None
      false None false None false false.
Proof.
  apply (no_fetch_irrelevant_when_ready
           (sample_world true false (fun _ => None)) None None 1 [] None
           false None false None true false false).
  reflexivity.
Defined.

(** ** Requests that are refused *)

(** X3.  A basejail type without the basejail flag never gets a jail
    built: the status is 1 and no unit is built or attempted, whatever the
    tokens are.  When the source needs no fetch, the run is the building
    of the source followed by the one error about the option. *)
Theorem basejail_type_needs_basejail w release template count props pkglist
    bt empty name no_fetch force :
  let run :=
    create.cli w release template count props pkglist false (Some bt) empty
      name no_fetch force in
  (exit_status run.2 = 1 /\ constructed run.1 = [] /\ attempted run.1 = [])
  /\ (source_ready w (selected_source w release template) = true ->
      run
      = ((default_notice w release template
          ++ ready_source_events (selected_source w release template)
          ++ [Logger error
                "Cannot set --basejail-type without --basejail option"])%list,
         Exited 1)).
Proof.
  intros run. split.
  - destruct (RoundFacts.cli_cases w release template count props pkglist
                false (Some bt) empty name no_fetch force)
      as [(t0 & Hp & Hr)|[(t0 & e & Hp & Hr)
         |(t0 & jd & res & tb & Hp & _)]]; try fold run in Hr.
    + split; [now rewrite Hr|].
      destruct (MoreFacts.nothing_built w release template count props
                  pkglist false (Some bt) empty name no_fetch force t0
                  (Exited 1)) as (Hc & Ha & _);
        [now rewrite Hp|exact Hr|]. now split.
    + split; [now rewrite Hr|].
      destruct (MoreFacts.nothing_built w release template count props
                  pkglist false (Some bt) empty name no_fetch force t0
                  (Raised e)) as (Hc & Ha & _);
        [now rewrite Hp|exact Hr|]. now split.
    + exfalso.
      apply (MoreFacts.prepare_guard w release template props bt name
               no_fetch (jd, res)).
      now rewrite Hp.
  - intros Hready. subst run.
    unfold create.cli, create.prepare, create.resolve_release.
    destruct release as [r|], template as [t|]; simpl in *;
      rewrite ?Hready; reflexivity.
Qed.

Lemma basejail_type_needs_basejail_witness :
  create.cli (sample_world true true (fun _ => None)) None (Some "base") 2
    ["tag"] None false (Some "zfs") false None false false
  = ([NewResource (JailGenerator "base");
      Logger error "Cannot set --basejail-type without --basejail option"],
     Exited 1).
Proof.
  apply (proj2 (basejail_type_needs_basejail
                  (sample_world true true (fun _ => None)) None (Some "base")
                  2 ["tag"] None "zfs" false None false false)).
  reflexivity.
Defined.

(** X4.  The options and tokens of a request are checked after its source
    is resolved: a request for a release that is available and not fetched,
    without [--no-fetch], which has a token without ['='] or a basejail
    type without the basejail flag, calls the fetch once and then ends
    with status 1 and no jail built. *)
Theorem request_refused_after_fetch w release template count props pkglist
    basejail basejail_type empty name force r :
  selected_source w release template = ReleaseGenerator r ->
  state_of w (ReleaseGenerator r) = available_remote ->
  (exists p, In p props /\ ~ In "="%char (list_ascii_of_string p))
  \/ (basejail = false /\ is_Some basejail_type) ->
  let run :=
    create.cli w release template count props pkglist basejail basejail_type
      empty name false force in
  fetches run.1 = 1%nat /\ exit_status run.2 = 1 /\ constructed run.1 = [].
Proof.
  intros Hsel Hstate Hbad run. split.
  - destruct (MoreFacts.run_split w release template count props pkglist
                basejail basejail_type empty name false force)
      as (tb & Hrun & Hf & _).
    fold run in Hrun. rewrite Hrun. unfold fetches.
    rewrite List.filter_app, Hf, app_nil_r.
    exact (prepare_fetches w release template props basejail basejail_type
             name false r Hsel Hstate eq_refl).
  - destruct Hbad as [(p & Hp & Hno)|[-> [bt ->]]].
    + destruct (bad_token_aborts w release template count props pkglist
                  basejail basejail_type empty name false force p Hp Hno)
        as (H1 & H2 & _). auto.
    + destruct (RoundFacts.cli_cases w release template count props pkglist
                  false (Some bt) empty name false force)
        as [(t0 & Hp & Hr)|[(t0 & e & Hp & Hr)
           |(t0 & jd & res & tb & Hp & _)]]; try fold run in Hr.
      * split; [now rewrite Hr|].
        destruct (MoreFacts.nothing_built w release template count props
                    pkglist false (Some bt) empty name false force t0
                    (Exited 1)) as (Hc & _);
          [now rewrite Hp|exact Hr|]. exact Hc.
      * split; [now rewrite Hr|].
        destruct (MoreFacts.nothing_built w release template count props
                    pkglist false (Some bt) empty name false force t0
                    (Raised e)) as (Hc & _);
          [now rewrite Hp|exact Hr|]. exact Hc.
      * exfalso.
        apply (MoreFacts.prepare_guard w release template props bt name
                 false (jd, res)).
        now rewrite Hp.
Qed.

Lemma request_refused_after_fetch_witness :
  let run :=
    create.cli (sample_world false true (fun _ => None))
      (Some "12.0-RELEASE") None 3 ["tag"] None false None false None false
      false in
  fetches run.1 = 1%nat /\ exit_status run.2 = 1 /\ constructed run.1 = [].
Proof.
  apply (request_refused_after_fetch
           (sample_world false true (fun _ => None)) (Some "12.0-RELEASE")
           None 3 ["tag"] None false None false None false "12.0-RELEASE").
  - reflexivity.
  - reflexivity.
  - left. exists "tag". split; [now left|].
    simpl. intros [H|[H|[H|[]]]]; discriminate.
Defined.

(** X14.  When the request passes the first phase without its tokens, the
    first token without ['='] is the one reported, after the first phase
    and with status 1; the tokens after it are not read. *)
Theorem first_malformed_token_reported w release template count good bad rest
    pkglist basejail basejail_type empty name no_fetch force t0 jd0 res :
  create.prepare w release template [] basejail basejail_type name no_fetch
  = (t0, Returned (jd0, res)) ->
  Forall (fun p => In "="%char (list_ascii_of_string p)) good ->
  ~ In "="%char (list_ascii_of_string bad) ->
  create.cli w release template count (good ++ bad :: rest)%list pkglist
    basejail basejail_type empty name no_fetch force
  = ((t0 ++ [Logger error ("Invalid property " ++ bad)])%list, Exited 1).
Proof.
  intros Hp Hgood Hbad. unfold create.cli.
  rewrite MoreFacts.prepare_then_tokens, Hp. cbn [bind fst snd].
  rewrite (MoreFacts.tokens_first_bad good bad rest jd0 Hgood Hbad).
  reflexivity.
Qed.

Lemma first_malformed_token_reported_witness :
  create.cli (sample_world true true (fun _ => None)) (Some "11.1-RELEASE")
    None 2 ["a=b"; "c"; "d"; "e=f"] None false None false None false false
  = ([NewResource (ReleaseGenerator "11.1-RELEASE");
      GetFetched (ReleaseGenerator "11.1-RELEASE");
      Logger error "Invalid property c"], Exited 1).
Proof.
  apply (first_malformed_token_reported
           (sample_world true true (fun _ => None)) (Some "11.1-RELEASE")
           None 2 ["a=b"] "c" ["d"; "e=f"] None false None false None false
           false
           [NewResource (ReleaseGenerator "11.1-RELEASE");
            GetFetched (ReleaseGenerator "11.1-RELEASE")]
           ∅ (ReleaseGenerator "11.1-RELEASE")).
  - reflexivity.
  - constructor; [|constructor]. simpl. tauto.
  - simpl. intros [H|[]]. discriminate.
Defined.

(** ** How a run ends *)

(** X6.  The status of a run is 0 or 1, and a run that ends on [exit(1)]
    has built and attempted no jail and reports no unit. *)
Theorem exit_status_zero_or_one w release template count props pkglist
    basejail basejail_type empty name no_fetch force :
  let run :=
    create.cli w release template count props pkglist basejail basejail_type
      empty name no_fetch force in
  (exit_status run.2 = 0 \/ exit_status run.2 = 1)
  /\ (run.2 = Exited 1 ->
      constructed run.1 = [] /\ attempted run.1 = [] /\ outcomes run.1 = []).
Proof.
  intros run.
  destruct (RoundFacts.cli_cases w release template count props pkglist
              basejail basejail_type empty name no_fetch force)
    as [(t0 & Hp & Hr)|[(t0 & e & Hp & Hr)
       |(t0 & jd & res & tb & Hp & [[Hb Hr]|(e & Hb & Hr)])]];
    fold run in Hr.
  - split; [right; now rewrite Hr|]. intros _.
    apply (MoreFacts.nothing_built w release template count props pkglist
             basejail basejail_type empty name no_fetch force t0 (Exited 1));
      [now rewrite Hp|exact Hr].
  - split; [right; now rewrite Hr|]. rewrite Hr. discriminate.
  - split; [left; now rewrite Hr|]. rewrite Hr. discriminate.
  - split; [right; now rewrite Hr|]. rewrite Hr. discriminate.
Qed.

Lemma exit_status_zero_or_one_witness :
  let run :=
    create.cli (sample_world false false (fun _ => None))
      (Some "9.9-RELEASE") None 4 [] None false None false None false false in
  constructed run.1 = [] /\ attempted run.1 = [] /\ outcomes run.1 = [].
Proof.
  apply (proj2 (exit_status_zero_or_one
                  (sample_world false false (fun _ => None))
                  (Some "9.9-RELEASE") None 4 [] None false None false None
                  false false)).
  reflexivity.
Defined.

(** X7.  A run that ends on [exit(0)] has attempted every unit of
    [range(count)], in order, and reports each of them once, as created or
    as failed; no unit raised an exception outside the library's. *)
Theorem status_zero_all_units_reported w release template count props
    pkglist basejail basejail_type empty name no_fetch force :
  let run :=
    create.cli w release template count props pkglist basejail basejail_type
      empty name no_fetch force in
  let source := selected_source w release template in
  run.2 = Exited 0 ->
  attempted run.1 = range count
  /\ outcomes run.1 = map (unit_outcome w source) (range count)
  /\ (forall i, In i (range count) -> isolated w source i).
Proof.
  intros run source Hzero.
  destruct (RoundFacts.cli_cases w release template count props pkglist
              basejail basejail_type empty name no_fetch force)
    as [(t0 & Hp & Hr)|[(t0 & e & Hp & Hr)
       |(t0 & jd & res & tb & Hp & [[Hb Hr]|(e & Hb & Hr)])]];
    fold run in Hr; try (rewrite Hr in Hzero; discriminate).
  pose proof (RoundFacts.prepared_setup w release template props basejail
                basejail_type name no_fetch) as Hsetup.
  rewrite Hp in Hsetup. cbn [fst] in Hsetup.
  destruct (CliFacts.prepare_returned w release template props basejail
              basejail_type name no_fetch t0 jd res Hp) as [Hres _].
  fold source in Hres. subst res.
  destruct (RoundFacts.rounds_segment w jd source count (Z.to_nat count) 0)
    as (k & _ & _ & _ & _ & _ & Hret).
  unfold create.batch, range in Hb. rewrite Hb in Hret.
  destruct (Hret eq_refl) as [_ Hiso].
  unfold create.batch, range in *.
  rewrite (BatchFacts.for_each_isolated w jd source count _ Hiso) in Hb.
  injection Hb as <-.
  destruct (MoreFacts.observed_isolated w count t0 jd source
              (seq 0 (Z.to_nat count)) Hsetup Hiso) as (Ha & Ho & _).
  rewrite Hr. cbn [fst]. auto.
Qed.

Lemma status_zero_all_units_reported_witness :
  let run :=
    create.cli (sample_world true true (failing_at 0 Py.IocageException))
      None (Some "base") 2 [] None false None false None false false in
  attempted run.1 = [0; 1]%nat
  /\ outcomes run.1 = [failure 0; success 1]
  /\ (forall i, In i [0; 1]%nat ->
        isolated (sample_world true true (failing_at 0 Py.IocageException))
          (JailGenerator "base") i).
Proof.
  apply (status_zero_all_units_reported
           (sample_world true true (failing_at 0 Py.IocageException))
           None (Some "base") 2 [] None false None false None false false).
  reflexivity.
Defined.

(** X5.  A count of zero or less is accepted: the first phase runs as for
    any count, no jail is built or attempted, and when the first phase
    returns the run ends on [exit(0)]. *)
Theorem non_positive_count_builds_nothing w release template count props
    pkglist basejail basejail_type empty name no_fetch force :
  count <= 0 ->
  let prepared :=
    create.prepare w release template props basejail basejail_type name
      no_fetch in
  let run :=
    create.cli w release template count props pkglist basejail basejail_type
      empty name no_fetch force in
  run.1 = prepared.1
  /\ constructed run.1 = [] /\ attempted run.1 = []
  /\ (forall x, prepared.2 = Returned x -> run.2 = Exited 0).
Proof.
  intros Hcount prepared run.
  assert (run.1 = prepared.1
          /\ forall x, prepared.2 = Returned x -> run.2 = Exited 0)
    as [Htrace Hret].
  { subst run prepared. unfold create.cli, create.batch, range.
    replace (Z.to_nat count) with 0%nat by lia.
    destruct (create.prepare w release template props basejail basejail_type
                name no_fetch) as [t0 [[jd res]|n|e]]; simpl;
      rewrite ?app_nil_r; split; try reflexivity; discriminate. }
  split; [exact Htrace|].
  pose proof (RoundFacts.prepared_setup w release template props basejail
                basejail_type name no_fetch) as Hsetup.
  fold prepared in Hsetup. rewrite Htrace.
  split; [now apply BatchFacts.constructed_setup|].
  split; [now apply BatchFacts.attempted_setup|exact Hret].
Qed.

Lemma non_positive_count_builds_nothing_witness :
  create.cli (sample_world false true (fun _ => None)) (Some "12.0-RELEASE")
    None (-3) ["tag=web"] None false None false None false false
  = ([NewResource (ReleaseGenerator "12.0-RELEASE");
      GetFetched (ReleaseGenerator "12.0-RELEASE");
      GetAvailable (ReleaseGenerator "12.0-RELEASE");
      Logger spam
        "The release '12.0-RELEASE' is available, but not downloaded yet";
      Logger log "Automatically fetching release '{resource.name}'";
      Fetch (ReleaseGenerator "12.0-RELEASE")], Exited 0).
Proof.
  pose proof (non_positive_count_builds_nothing
                (sample_world false true (fun _ => None))
                (Some "12.0-RELEASE") None (-3) ["tag=web"] None false None
                false None false false ltac:(lia)) as (H1 & _ & _ & H2).
  apply injective_projections; [exact H1|].
  exact (H2 _ eq_refl).
Defined.

(** X17.  In every run, what belongs to the first phase comes first: once
    the first jail is built the run builds no source, asks no inventory,
    calls no fetch and logs no error, only the events of the rounds. *)
Theorem setup_precedes_rounds w release template count props pkglist
    basejail basejail_type empty name no_fetch force :
  let run :=
    create.cli w release template count props pkglist basejail basejail_type
      empty name no_fetch force in
  exists t0 tb,
    run.1 = (t0 ++ tb)%list
    /\ t0 = (create.prepare w release template props basejail basejail_type
               name no_fetch).1
    /\ forallb setup_event t0 = true
    /\ forallb round_event tb = true.
Proof.
  intros run.
  destruct (MoreFacts.run_split w release template count props pkglist
              basejail basejail_type empty name no_fetch force)
    as (tb & Hrun & _ & _ & _ & Hround).
  eexists _, tb. split; [exact Hrun|]. split; [reflexivity|].
  split; [|exact Hround].
  apply RoundFacts.prepared_setup.
Qed.

(** X18.  In every run the units attempted are [0], [1], ... up to some
    unit, without a gap and in that order; they are exactly the units for
    which a jail was built, and all of these jails were handed the same
    data. *)
Theorem units_attempted_in_order w release template count props pkglist
    basejail basejail_type empty name no_fetch force :
  let run :=
    create.cli w release template count props pkglist basejail basejail_type
      empty name no_fetch force in
  exists k jd,
    (k <= Z.to_nat count)%nat
    /\ attempted run.1 = seq 0 k
    /\ constructed run.1 = map (fun i => (i, jd)) (seq 0 k).
Proof.
  intros run.
  pose proof (RoundFacts.prepared_setup w release template props basejail
                basejail_type name no_fetch) as Hsetup.
  assert (forall t0 jd res tb r,
            create.prepare w release template props basejail basejail_type
              name no_fetch = (t0, Returned (jd, res)) ->
            create.batch w jd res count = (tb, r) ->
            exists k,
              (k <= Z.to_nat count)%nat
              /\ attempted (t0 ++ tb) = seq 0 k
              /\ constructed (t0 ++ tb) = map (fun i => (i, jd)) (seq 0 k))
    as Hseg.
  { intros t0 jd res tb r Hp Hb. rewrite Hp in Hsetup. cbn [fst] in Hsetup.
    destruct (RoundFacts.rounds_segment w jd res count (Z.to_nat count) 0)
      as (k & Hk & Ha & Hc & _).
    unfold create.batch, range in Hb. rewrite Hb in Ha, Hc.
    cbn [fst] in Ha, Hc. exists k. split; [exact Hk|].
    unfold attempted, constructed in *. rewrite !omap_app, Ha, Hc.
    fold (attempted t0) (constructed t0).
    now rewrite BatchFacts.attempted_setup, BatchFacts.constructed_setup. }
  destruct (RoundFacts.cli_cases w release template count props pkglist
              basejail basejail_type empty name no_fetch force)
    as [(t0 & Hp & Hr)|[(t0 & e & Hp & Hr)
       |(t0 & jd & res & tb & Hp & [[Hb Hr]|(e & Hb & Hr)])]];
    fold run in Hr.
  - exists 0%nat, ∅. split; [lia|].
    destruct (MoreFacts.nothing_built w release template count props pkglist
                basejail basejail_type empty name no_fetch force t0
                (Exited 1)) as (Hc & Ha & _);
      [now rewrite Hp|exact Hr|]. fold run in Hc, Ha. now rewrite Hc, Ha.
  - exists 0%nat, ∅. split; [lia|].
    destruct (MoreFacts.nothing_built w release template count props pkglist
                basejail basejail_type empty name no_fetch force t0
                (Raised e)) as (Hc & Ha & _);
      [now rewrite Hp|exact Hr|]. fold run in Hc, Ha. now rewrite Hc, Ha.
  - destruct (Hseg t0 jd res tb _ Hp Hb) as (k & Hk & Ha & Hc).
    exists k, jd. rewrite Hr. auto.
  - destruct (Hseg t0 jd res tb _ Hp Hb) as (k & Hk & Ha & Hc).
    exists k, jd. rewrite Hr. auto.
Qed.

(** ** The count and the data of the units *)

(** X8.  The command hands [cli] the integer the [--count] text denotes:
    for a text that is the decimal writing of [n] with commas put anywhere,
    and for the integer [n] itself, the command is [cli] with count [n],
    with nothing logged by the callback. *)
Theorem command_runs_cli_with_count w release template props pkglist
    basejail basejail_type empty name no_fetch force s n :
  Py.str_replace "," "" s = Py.str_of_int n ->
  create.command w release template (create.CountStr s) props pkglist
    basejail basejail_type empty name no_fetch force
  = create.cli w release template n props pkglist basejail basejail_type
      empty name no_fetch force
  /\ create.command w release template (create.CountInt n) props pkglist
       basejail basejail_type empty name no_fetch force
     = create.cli w release template n props pkglist basejail basejail_type
         empty name no_fetch force.
Proof.
  intros Hs. unfold create.command.
  rewrite (validate_count_accepts s n)
    by (rewrite Hs; apply PyFacts.int_of_str_str_of_int).
  unfold create.validate_count, ret.
  destruct (create.cli w release template n props pkglist basejail
              basejail_type empty name no_fetch force) as [t r] eqn:E.
  unfold bind. rewrite E. split; reflexivity.
Qed.

Lemma command_runs_cli_with_count_witness :
  create.command (sample_world true true (fun _ => None))
    (Some "11.1-RELEASE") None (create.CountStr "1,2") [] None false None
    false None false false
  = create.cli (sample_world true true (fun _ => None))
      (Some "11.1-RELEASE") None 12 [] None false None false None false false.
Proof.
  apply (proj1 (command_runs_cli_with_count
                  (sample_world true true (fun _ => None))
                  (Some "11.1-RELEASE") None [] None false None false None
                  false false "1,2" 12 eq_refl)).
Defined.

(** X9.  The note [(i/count)] added to the messages of a batch tells its
    units apart: for a count above 1, two different units have different
    notes.  For a count of 1 or less there is no note. *)
Theorem suffix_tells_units_apart count i j :
  (1 < count -> i <> j -> create.suffix i count <> create.suffix j count)
  /\ (count <= 1 -> create.suffix i count = "").
Proof.
  unfold create.suffix. split.
  - intros Hc Hij. apply Z.ltb_lt in Hc. rewrite Hc.
    rewrite !JSONFacts.append_cons, !JSONFacts.append_nil.
    intros [= H]. apply MoreFacts.append_inj_r in H.
    apply MoreFacts.str_of_int_inj in H. lia.
  - intros Hc. apply Z.ltb_ge in Hc. now rewrite Hc.
Qed.

Lemma suffix_tells_units_apart_witness :
  create.suffix 1 12 <> create.suffix 11 12 /\ create.suffix 0 1 = "".
Proof.
  split.
  - apply (proj1 (suffix_tells_units_apart 12 1 11)); lia.
  - apply (proj2 (suffix_tells_units_apart 1 0 0)). lia.
Defined.

(** X10.  With [--basejail], every jail that is built has [basejail] set
    to [True], and with a basejail type every jail that is built has that
    type, unless a token names the key. *)
Theorem basejail_options_in_every_unit w release template count props
    pkglist basejail basejail_type empty name no_fetch force i d :
  In (i, d)
    (constructed
       (create.cli w release template count props pkglist basejail
          basejail_type empty name no_fetch force).1) ->
  (basejail = true ->
   (forall p v, In p props -> p <> "basejail" ++ String "=" v) ->
   d !! "basejail" = Some (VBool true))
  /\ (forall bt, basejail_type = Some bt ->
        (forall p v, In p props -> p <> "basejail_type" ++ String "=" v) ->
        d !! "basejail_type" = Some (VStr bt)).
Proof.
  intros Hin. apply constructed_data in Hin.
  destruct (MoreFacts.base_jail_data_options name basejail basejail_type)
    as (Hb & Ht & _).
  split.
  - intros Hbase Hprops.
    rewrite (RunFacts.props_loop_preserves "basejail" _ _ _ _ Hin Hprops).
    now apply Hb.
  - intros bt Htype Hprops.
    rewrite (RunFacts.props_loop_preserves "basejail_type" _ _ _ _ Hin
               Hprops).
    now apply Ht.
Qed.

Lemma basejail_options_in_every_unit_witness :
  ({["basejail" := VBool true; "basejail_type" := VStr "zfs"]}
     : gmap string value) !! "basejail" = Some (VBool true)
  /\ ({["basejail" := VBool true; "basejail_type" := VStr "zfs"]}
        : gmap string value) !! "basejail_type" = Some (VStr "zfs").
Proof.
  assert (In (1%nat,
              ({["basejail" := VBool true; "basejail_type" := VStr "zfs"]}
                 : gmap string value))
            (constructed
               (create.cli (sample_world true true (fun _ => None))
                  (Some "11.1-RELEASE") None 2 [] None true (Some "zfs")
                  false None false false).1)) as Hin.
  { right. left. reflexivity. }
  destruct (basejail_options_in_every_unit _ _ _ _ _ _ _ _ _ _ _ _ _ _ Hin)
    as [H1 H2].
  split.
  - apply H1; [reflexivity|intros p v []].
  - apply (H2 "zfs"); [reflexivity|intros p v []].
Defined.

(** X11.  Without an explicit name, or with the empty one, no jail that is
    built has a [name], unless a token names the key; the empty name is
    not stored. *)
Theorem no_name_without_explicit_name w release template count props pkglist
    basejail basejail_type empty name no_fetch force i d :
  name = None \/ name = Some "" ->
  (forall p v, In p props -> p <> "name" ++ String "=" v) ->
  In (i, d)
    (constructed
       (create.cli w release template count props pkglist basejail
          basejail_type empty name no_fetch force).1) ->
  d !! "name" = None.
Proof.
  intros Hname Hprops Hin. apply constructed_data in Hin.
  rewrite (RunFacts.props_loop_preserves "name" _ _ _ _ Hin Hprops).
  apply MoreFacts.base_jail_data_options.
  destruct Hname as [-> | ->]; reflexivity.
Qed.

Lemma no_name_without_explicit_name_witness :
  ({["tag" := VStr "web"]} : gmap string value) !! "name" = None.
Proof.
  apply (no_name_without_explicit_name
           (sample_world true true (fun _ => None)) (Some "11.1-RELEASE")
           None 1 ["tag=web"] None false None false (Some "") false false
           0%nat {["tag" := VStr "web"]}).
  - now right.
  - intros p v [<-|[]]. discriminate.
  - left. reflexivity.
Defined.

(** X15.  A count text with a character that is neither a digit, a comma,
    white space, an underscore nor a sign (a decimal point, a letter, a
    space-like symbol) is refused by the callback: one error that shows
    the text without its commas, and status 1. *)
Theorem count_with_foreign_character_refused s c :
  In c (list_ascii_of_string s) ->
  c <> ","%char ->
  Py.int_char c = false ->
  create.validate_count (create.CountStr s)
  = ([Logger error (Py.str_replace "," "" s ++ " is not a valid integer.")],
     Exited 1).
Proof.
  intros Hc Hcomma Hint. apply validate_count_refuses.
  destruct (Py.int_of_str (Py.str_replace "," "" s)) as [n|] eqn:E;
    [|reflexivity].
  pose proof (PyFacts.int_of_str_chars _ n c E
                (PyFacts.str_replace_keeps _ s c Hc Hcomma)) as H.
  congruence.
Qed.

Lemma count_with_foreign_character_refused_witness :
  create.validate_count (create.CountStr "1,000.5")
  = ([Logger error "1000.5 is not a valid integer."], Exited 1).
Proof.
  apply (count_with_foreign_character_refused "1,000.5" "."%char).
  - simpl. tauto.
  - discriminate.
  - reflexivity.
Defined.

(** X16.  A count text without any digit, be it empty or made of commas
    only, is refused: the error shows an empty text, and the status
    is 1. *)
Theorem count_without_digits_refused s :
  (forall c, In c (list_ascii_of_string s) -> c = ","%char) ->
  create.validate_count (create.CountStr s)
  = ([Logger error " is not a valid integer."], Exited 1).
Proof.
  intros Hs.
  rewrite validate_count_refuses;
    rewrite (MoreFacts.only_commas_removed s Hs); reflexivity.
Qed.

Lemma count_without_digits_refused_witness :
  create.validate_count (create.CountStr ",,")
  = ([Logger error " is not a valid integer."], Exited 1).
Proof.
  apply (count_without_digits_refused ",,").
  simpl. intros c [<-|[<-|[]]]; reflexivity.
Defined.

(** ** Reading a blank document *)

(** X19.  A text that is empty or made of white space only is not a
    document: [map_input] reads no store from it. *)
Theorem map_input_blank_text data :
  ConfigJSON.all_ws data = true -> ConfigJSON.map_input data = None.
Proof.
  intros Hws. unfold ConfigJSON.map_input, ConfigJSON.json_load.
  assert (ConfigJSON.skip_ws data = "") as ->; [|reflexivity].
  induction data as [|c data IH]; [reflexivity|].
  cbn [ConfigJSON.all_ws ConfigJSON.skip_ws] in *.
  apply andb_true_iff in Hws as [Hc Hd]. rewrite Hc. now apply IH.
Qed.

Lemma map_input_blank_text_witness :
  ConfigJSON.map_input (String " " (String "010" "")) = None.
Proof.
  apply (map_input_blank_text (String " " (String "010" ""))).
  reflexivity.
Defined.

(** ** The explicit name and the count *)



